(** * Font reducer: a shallow embedding of [plugins/fonts/subset/subset_font.py]

    The script reads a font, intersects its character coverage with a
    hard-coded set of common characters, asks fontTools to subset the font to
    that intersection and saves the result.  Code points are Python integers
    (modelled as [Z]), Python sets of code points are finite sets ([gset Z]),
    and the side effects (file system, font objects, console, exceptions) are
    threaded through a small state-and-exception monad. *)

From Stdlib Require Import ZArith Lia.
From Stdlib Require Import Floats.SpecFloat.
From Stdlib Require Import Ascii.
From stdpp Require Import gmap strings list sets pretty.

Local Open Scope Z_scope.

(** ** Python built-ins used by the script *)

(** [range(start, stop)]: the integers [start <= i < stop], ascending. *)
Definition py_range (start stop : Z) : list Z := seqZ start (stop - start).

(** [s.update(iterable)]: every element of the iterable is added to [s]. *)
Definition set_update (s : gset Z) (it : list Z) : gset Z :=
  foldl (fun acc x => acc ∪ {[ x ]}) s it.

(** ** [get_common_chinese_chars] (lines 13-40) *)

Definition get_common_chinese_chars : gset Z :=
  let chars := ∅ in
  let chars := set_update chars (py_range 0x20 0x7F) in
  let chars := set_update chars (py_range 0x2000 0x206F) in
  let chars := set_update chars (py_range 0x3000 0x303F) in
  let chars := set_update chars (py_range 0xFF00 0xFFEF) in
  let chars := set_update chars (py_range 0x4E00 0x9FA6) in
  let chars := set_update chars (py_range 0x3040 0x309F) in
  let chars := set_update chars (py_range 0x30A0 0x30FF) in
  chars.

(** ** Binary64 arithmetic (Python [float])

    The size report works on Python floats.  They are IEEE-754 binary64
    numbers, given here by the reference semantics of [SpecFloat] with
    [prec = 53] and [emax = 1024] (round to nearest, ties to even). *)

Module Float.

Definition prec : Z := 53.
Definition emax : Z := 1024.

(** [float(n)] for a Python integer [n] (exact below [2^53]). *)
Definition of_int (n : Z) : spec_float := binary_normalize prec emax n 0 false.

Definition div (x y : spec_float) : spec_float := SFdiv prec emax x y.
Definition sub (x y : spec_float) : spec_float := SFsub prec emax x y.
Definition mul (x y : spec_float) : spec_float := SFmul prec emax x y.
Definition leb (x y : spec_float) : bool := SFleb x y.

Definition is_zero (x : spec_float) : bool :=
  match x with S754_zero _ => true | _ => false end.

End Float.

Arguments Float.of_int : simpl never.
Arguments Float.div : simpl never.
Arguments Float.sub : simpl never.
Arguments Float.mul : simpl never.
Arguments Float.leb : simpl never.

(** ** Fonts, as fontTools presents them to the script *)

(** One subtable of the ['cmap'] table; [cmap] is its [.cmap] dict from
    character code to glyph name. *)
Record CmapSubtable := { cmap : gmap Z string }.

(** The decoded contents of a font.  [cmap_tables] is [font['cmap'].tables],
    or [None] when the font has no ['cmap'] table; the script reads nothing
    else, the remaining fields are what the subsetter works on. *)
Record FontData := {
  cmap_tables : option (list CmapSubtable);
  glyph_order : list string;
  table_tags : list string
}.

(** A [TTFont] object: its tables and whether its file handle is still held. *)
Record FontObj := { font_data : FontData; font_open : bool }.

(** [subset.Options]: the five attributes the script assigns; every other
    attribute keeps the value [subset.Options()] gave it and is carried along
    in [other_options]. *)
Record Options := {
  drop_tables : list string;
  desubroutinize : bool;
  hinting : bool;
  legacy_kern : bool;
  layout_features : list string;
  other_options : list (string * string)
}.

Definition set_drop_tables (v : list string) (o : Options) : Options :=
  {| drop_tables := v; desubroutinize := desubroutinize o; hinting := hinting o;
     legacy_kern := legacy_kern o; layout_features := layout_features o;
     other_options := other_options o |}.

Definition set_desubroutinize (v : bool) (o : Options) : Options :=
  {| drop_tables := drop_tables o; desubroutinize := v; hinting := hinting o;
     legacy_kern := legacy_kern o; layout_features := layout_features o;
     other_options := other_options o |}.

Definition set_hinting (v : bool) (o : Options) : Options :=
  {| drop_tables := drop_tables o; desubroutinize := desubroutinize o; hinting := v;
     legacy_kern := legacy_kern o; layout_features := layout_features o;
     other_options := other_options o |}.

Definition set_legacy_kern (v : bool) (o : Options) : Options :=
  {| drop_tables := drop_tables o; desubroutinize := desubroutinize o;
     hinting := hinting o; legacy_kern := v; layout_features := layout_features o;
     other_options := other_options o |}.

Definition set_layout_features (v : list string) (o : Options) : Options :=
  {| drop_tables := drop_tables o; desubroutinize := desubroutinize o;
     hinting := hinting o; legacy_kern := legacy_kern o; layout_features := v;
     other_options := other_options o |}.

(** [subset.Subsetter]: its options and the code points [populate] was given. *)
Record Subsetter := { options : Options; unicodes_requested : gset Z }.

(** How the operating system answers the [open(path, "wb")] and the [write]
    with which [TTFont.save] stores the serialised font: everything is
    written; or the open is refused and the path is left as it was; or the
    open succeeds, which truncates the file, and the write stops with an error
    after [written] bytes. *)
Inductive OSFailure :=
| NotFound
| OtherOSError (msg : string).

Inductive WriteOutcome :=
| Written
| OpenFails (f : OSFailure)
| WriteFails (msg : string) (written : nat).

(** The fontTools operations the script calls.  They are not part of this
    repository and are taken as parameters: [ft_decode] reads a font file
    ([inl msg]: not a font), [ft_default_options] is [subset.Options()],
    [ft_subset] is [Subsetter.subset]; [ft_compile] and [ft_write] are the two
    halves of [TTFont.save], the serialisation in memory, which may fail with
    a message, and then the writing of the bytes to the path, with the answer
    of the operating system. *)
Record FontTools := {
  ft_decode : list Byte.byte -> string + FontData;
  ft_default_options : Options;
  ft_subset : Subsetter -> FontData -> string + FontData;
  ft_compile : FontData -> string + list Byte.byte;
  ft_write : string -> list Byte.byte -> WriteOutcome
}.

(** ** Exceptions, console output and the trace of effects *)

(** The exceptions the script's operations raise.  All are subclasses of
    [Exception]; [LibraryError] stands for whatever fontTools raises on a
    malformed file or while subsetting or serialising, [OSError] for the
    operating system's errors other than [FileNotFoundError]. *)
Inductive PyExc :=
| FileNotFoundError (path : string)
| KeyError (key : string)
| ZeroDivisionError
| LibraryError (msg : string)
| OSError (msg : string).

(** The exception Python raises for a failure of the operating system on
    [path]. *)
Definition os_exception (path : string) (f : OSFailure) : PyExc :=
  match f with
  | NotFound => FileNotFoundError path
  | OtherOSError msg => OSError msg
  end.

(** One constructor per [print] of the script, with the values interpolated
    into its text. *)
Inductive Output :=
| OutReading (path : string)
| OutSourceCount (n : Z)
| OutCommonCount (n : Z)
| OutKeepCount (n : Z)
| OutRemoveCount (n : Z)
| OutSaving (path : string)
| OutOriginalSize (mb : spec_float)
| OutNewSize (mb : spec_float)
| OutRatio (percent : spec_float)
| OutWithinLimit (mb : spec_float)
| OutOverLimit (mb : spec_float)
| OutAdvice
| OutRule
| OutProcessing (name : string)
| OutJobDone
| OutNotFound (path : string)
| OutError (e : PyExc)
| OutTraceback (e : PyExc)
| OutAllDone.

Inductive Event :=
| EvPrint (o : Output)
| EvOpen (path : string) (id : nat)
| EvSubsetter (o : Options)
| EvPopulate (unicodes : gset Z)
| EvSubset (s : Subsetter) (id : nat)
| EvSave (id : nat) (path : string)
| EvClose (id : nat).

(** The world the script runs in: the files on disk, the [TTFont] objects
    created so far (an object is named by its index) and the effects so far. *)
Record State := {
  files : gmap string (list Byte.byte);
  fonts : list FontObj;
  trace : list Event
}.

Inductive Result (A : Type) :=
| Ok (a : A)
| Raise (e : PyExc).
Arguments Ok {A} a.
Arguments Raise {A} e.

Definition M (A : Type) : Type := State -> Result A * State.

Definition ret {A} (a : A) : M A := fun st => (Ok a, st).

Definition bind {A B} (m : M A) (k : A -> M B) : M B :=
  fun st => match m st with
            | (Ok a, st') => k a st'
            | (Raise e, st') => (Raise e, st')
            end.

Definition raise {A} (e : PyExc) : M A := fun st => (Raise e, st).

(** [try: body except ...: handler]. *)
Definition try_except {A} (body : M A) (handler : PyExc -> M A) : M A :=
  fun st => match body st with
            | (Raise e, st') => handler e st'
            | r => r
            end.

Declare Scope py_scope.
Delimit Scope py_scope with py.
Notation "x <- m ;; k" := (bind m (fun x => k))
  (at level 100, m at next level, right associativity) : py_scope.
Notation "m ;; k" := (bind m (fun _ => k))
  (at level 100, right associativity) : py_scope.
Local Open Scope py_scope.

(** [for x in l: body x]. *)
Fixpoint for_each {A} (l : list A) (body : A -> M unit) : M unit :=
  match l with
  | [] => ret tt
  | x :: l' => body x ;; for_each l' body
  end.

(** ** Primitive operations *)

Definition emit (ev : Event) : M unit :=
  fun st => (Ok tt, {| files := files st; fonts := fonts st; trace := trace st ++ [ev] |}).

Definition print (o : Output) : M unit := emit (EvPrint o).

(** [len(s)] of a set. *)
Definition len (s : gset Z) : Z := Z.of_nat (size s).

(** [d.keys()] of a dict. *)
Definition dict_keys (d : gmap Z string) : list Z := (map_to_list d).*1.

(** [os.path.join(a, b)] on POSIX paths. *)
Definition ends_with_slash (a : string) : bool :=
  match last (String.list_ascii_of_string a) with
  | Some c => bool_decide (c = "/"%char)
  | None => false
  end.

Definition os_path_join (a b : string) : string :=
  match b with
  | String "/" _ => b
  | _ => if bool_decide (a = "") || ends_with_slash a then a +:+ b else a +:+ "/" +:+ b
  end.

(** [os.path.getsize(path)]. *)
Definition os_path_getsize (path : string) : M Z :=
  fun st => match files st !! path with
            | Some bytes => (Ok (Z.of_nat (length bytes)), st)
            | None => (Raise (FileNotFoundError path), st)
            end.

(** [x / y] on floats. *)
Definition float_truediv (x y : spec_float) : M spec_float :=
  if Float.is_zero y then raise ZeroDivisionError else ret (Float.div x y).

Definition set_font (id : nat) (o : FontObj) : M unit :=
  fun st => (Ok tt, {| files := files st; fonts := <[id := o]> (fonts st); trace := trace st |}).

Definition get_font (id : nat) : M FontObj :=
  fun st => match fonts st !! id with
            | Some o => (Ok o, st)
            | None => (Raise (LibraryError "no such font object"), st)
            end.

(** The file at [path] now holds [bytes]. *)
Definition set_file (path : string) (bytes : list Byte.byte) : M unit :=
  fun st => (Ok tt, {| files := <[path := bytes]> (files st); fonts := fonts st; trace := trace st |}).

Section Reducer.

Context (ft : FontTools).

(** [TTFont(path)]: opens the file and keeps the handle. *)
Definition TTFont (path : string) : M nat :=
  fun st => match files st !! path with
            | None => (Raise (FileNotFoundError path), st)
            | Some bytes =>
                match ft_decode ft bytes with
                | inl msg => (Raise (LibraryError msg), st)
                | inr d =>
                    let id := length (fonts st) in
                    (Ok id, {| files := files st;
                               fonts := fonts st ++ [{| font_data := d; font_open := true |}];
                               trace := trace st ++ [EvOpen path id] |})
                end
            end.

(** [font['cmap'].tables]. *)
Definition TTFont_cmap_tables (font : nat) : M (list CmapSubtable) :=
  o <- get_font font ;;
  match cmap_tables (font_data o) with
  | Some tables => ret tables
  | None => raise (KeyError "cmap")
  end.

(** [subset.Subsetter(options=options)]. *)
Definition Subsetter_new (o : Options) : M Subsetter :=
  emit (EvSubsetter o) ;;
  ret {| options := o; unicodes_requested := ∅ |}.

(** [subsetter.populate(unicodes=u)]. *)
Definition Subsetter_populate (s : Subsetter) (u : gset Z) : M Subsetter :=
  emit (EvPopulate u) ;;
  ret {| options := options s; unicodes_requested := unicodes_requested s ∪ u |}.

(** [subsetter.subset(font)]: rewrites the font object in place. *)
Definition Subsetter_subset (s : Subsetter) (font : nat) : M unit :=
  emit (EvSubset s font) ;;
  o <- get_font font ;;
  match ft_subset ft s (font_data o) with
  | inl msg => raise (LibraryError msg)
  | inr d => set_font font {| font_data := d; font_open := font_open o |}
  end.

(** [with open(path, "wb") as file: file.write(bytes)], the last step of
    [TTFont.save].  A refused open raises and leaves the disk as it was; a
    write that stops raises and leaves the bytes written so far at [path].
    Nothing is written to a temporary file and nothing is removed on
    failure. *)
Definition write_file (path : string) (bytes : list Byte.byte) : M unit :=
  match ft_write ft path bytes with
  | Written => set_file path bytes
  | OpenFails f => raise (os_exception path f)
  | WriteFails msg written => set_file path (take written bytes) ;; raise (OSError msg)
  end.

(** [font.save(path)]: the font is serialised in memory, then written. *)
Definition TTFont_save (font : nat) (path : string) : M unit :=
  emit (EvSave font path) ;;
  o <- get_font font ;;
  match ft_compile ft (font_data o) with
  | inl msg => raise (LibraryError msg)
  | inr bytes => write_file path bytes
  end.

(** [font.close()]. *)
Definition TTFont_close (font : nat) : M unit :=
  emit (EvClose font) ;;
  o <- get_font font ;;
  set_font font {| font_data := font_data o; font_open := false |}.

(** ** [subset_font_aggressive] (lines 43-96) *)

(** Lines 55-57: the union of the keys of every subtable. *)
Definition source_chars_of (tables : list CmapSubtable) : gset Z :=
  foldl (fun source_chars table => set_update source_chars (dict_keys (cmap table)))
        ∅ tables.

(** Lines 70-75. *)
Definition aggressive_options : Options :=
  let options := ft_default_options ft in
  let options := set_drop_tables ["DSIG"] options in
  let options := set_desubroutinize true options in
  let options := set_hinting false options in
  let options := set_legacy_kern false options in
  let options := set_layout_features ["*"] options in
  options.

(** Lines 86-96: the size report. *)
Definition report_sizes (source_font_path output_font_path : string) : M unit :=
  s1 <- os_path_getsize source_font_path ;;
  let original_size := Float.div (Float.of_int s1) (Float.of_int (1024 * 1024)) in
  s2 <- os_path_getsize output_font_path ;;
  let new_size := Float.div (Float.of_int s2) (Float.of_int (1024 * 1024)) in
  print (OutOriginalSize original_size) ;;
  print (OutNewSize new_size) ;;
  q <- float_truediv new_size original_size ;;
  print (OutRatio (Float.mul (Float.sub (Float.of_int 1) q) (Float.of_int 100))) ;;
  if Float.leb new_size (Float.of_int 20)
  then print (OutWithinLimit new_size)
  else (print (OutOverLimit new_size) ;; print OutAdvice).

Definition subset_font_aggressive (source_font_path output_font_path : string) : M unit :=
  print (OutReading source_font_path) ;;
  source_font <- TTFont source_font_path ;;
  tables <- TTFont_cmap_tables source_font ;;
  let source_chars := source_chars_of tables in
  print (OutSourceCount (len source_chars)) ;;
  let common_chars := get_common_chinese_chars in
  print (OutCommonCount (len common_chars)) ;;
  let chars_to_keep := common_chars ∩ source_chars in
  print (OutKeepCount (len chars_to_keep)) ;;
  print (OutRemoveCount (len source_chars - len chars_to_keep)) ;;
  subsetter <- Subsetter_new aggressive_options ;;
  subsetter <- Subsetter_populate subsetter chars_to_keep ;;
  Subsetter_subset subsetter source_font ;;
  print (OutSaving output_font_path) ;;
  TTFont_save source_font output_font_path ;;
  TTFont_close source_font ;;
  report_sizes source_font_path output_font_path.

(** ** The batch driver (lines 99-131) *)

Definition fonts_to_process : list (string * string) :=
  [ ("SourceHanSerifSC.otf", "SourceHanSerifSC-subset.otf");
    ("SourceHanSansSC-Bold.otf", "SourceHanSansSC-Bold-subset.otf") ].

(** The body of the [for] loop, lines 110-127. *)
Definition process_font (script_dir : string) (job : string * string) : M unit :=
  let '(source_name, output_name) := job in
  let source_font := os_path_join script_dir source_name in
  let output_font := os_path_join script_dir output_name in
  print OutRule ;;
  print (OutProcessing source_name) ;;
  print OutRule ;;
  try_except
    (subset_font_aggressive source_font output_font ;;
     print OutJobDone)
    (fun e =>
       match e with
       | FileNotFoundError _ => print (OutNotFound source_font)
       | _ => print (OutError e) ;; print (OutTraceback e)
       end).

Definition main (script_dir : string) : M unit :=
  for_each fonts_to_process (process_font script_dir) ;;
  print OutRule ;;
  print OutAllDone ;;
  print OutRule.

End Reducer.

(** ** A reference instance of the library interface

    A miniature font format and subsetter, used to run the script on concrete
    inputs.  A file is a tag byte followed by three-byte big-endian code
    points: tag [x01] is a font with one cmap subtable holding those code
    points, tag [x00] a font without a ['cmap'] table. *)

Module Ref.

Fixpoint decode_codes (bs : list Byte.byte) : list Z :=
  match bs with
  | b2 :: b1 :: b0 :: rest =>
      (Z.of_N (Byte.to_N b2) * 65536 + Z.of_N (Byte.to_N b1) * 256 + Z.of_N (Byte.to_N b0))
        :: decode_codes rest
  | _ => []
  end.

Definition byte_of_Z (z : Z) : Byte.byte :=
  default Byte.x00 (Byte.of_N (Z.to_N (z mod 256))).

Definition encode_code (c : Z) : list Byte.byte :=
  [byte_of_Z (c / 65536); byte_of_Z (c / 256); byte_of_Z c].

Definition glyph_name (c : Z) : string := "u" +:+ pretty c.

Definition subtable_of_codes (cs : list Z) : CmapSubtable :=
  {| cmap := list_to_map ((fun c => (c, glyph_name c)) <$> cs) |}.

Definition decode (bs : list Byte.byte) : string + FontData :=
  match bs with
  | Byte.x00 :: _ =>
      inr {| cmap_tables := None; glyph_order := [".notdef"];
             table_tags := ["head"; "DSIG"] |}
  | Byte.x01 :: rest =>
      let cs := decode_codes rest in
      inr {| cmap_tables := Some [subtable_of_codes cs];
             glyph_order := ".notdef" :: (glyph_name <$> cs);
             table_tags := ["head"; "cmap"; "DSIG"] |}
  | _ => inl "Not a TrueType or OpenType font"
  end.

Definition default_options : Options :=
  {| drop_tables := ["JSTF"; "DSIG"; "EBDT"; "EBLC"; "EBSC"; "PCLT"; "LTSH"];
     desubroutinize := false; hinting := true; legacy_kern := false;
     layout_features := ["kern"; "liga"];
     other_options := [("notdef_glyph", "True"); ("layout_closure", "True")] |}.

(** The subsetter keeps, in every subtable, the entries of the requested code
    points. *)
Definition prune_subtable (u : gset Z) (t : CmapSubtable) : CmapSubtable :=
  {| cmap := filter (fun kv => kv.1 ∈ u) (cmap t) |}.

Definition reduce (s : Subsetter) (d : FontData) : FontData :=
  let u := unicodes_requested s in
  {| cmap_tables :=
       match cmap_tables d with
       | Some ts => Some (map (prune_subtable u) ts)
       | None => None
       end;
     glyph_order :=
       ".notdef" :: filter (fun g => g ∈ map glyph_name (elements u)) (glyph_order d);
     table_tags := filter (fun t => t ∉ drop_tables (options s)) (table_tags d) |}.

Definition subset (s : Subsetter) (d : FontData) : string + FontData :=
  inr (reduce s d).

Definition serialise (d : FontData) : list Byte.byte :=
  match cmap_tables d with
  | None => [Byte.x00]
  | Some ts => Byte.x01 :: (ts ≫= fun t => dict_keys (cmap t) ≫= encode_code)
  end.

Definition compile (d : FontData) : string + list Byte.byte :=
  inr (serialise d).

Definition fonttools : FontTools :=
  {| ft_decode := decode; ft_default_options := default_options;
     ft_subset := subset; ft_compile := compile; ft_write := fun _ _ => Written |}.

(** A font declaring [A], [中] and an emoji, and a font without a cmap. *)
Definition font_A_zhong_emoji : list Byte.byte :=
  Byte.x01 :: encode_code 0x41 ++ encode_code 0x4E2D ++ encode_code 0x1F600.

Definition font_without_cmap : list Byte.byte := [Byte.x00].

Definition disk : gmap string (list Byte.byte) :=
  {[ "/fonts/SourceHanSerifSC.otf" := font_A_zhong_emoji;
     "/fonts/SourceHanSansSC-Bold.otf" := font_without_cmap ]}.

Definition initial : State := {| files := disk; fonts := []; trace := [] |}.

End Ref.

(** ** Character coverage and the shape of a run *)

(** The character coverage of a font, enumerated as lines 55-57 do. *)
Definition font_chars (d : FontData) : gset Z :=
  match cmap_tables d with
  | Some tables => source_chars_of tables
  | None => ∅
  end.

(** Line 65. *)
Definition chars_to_keep (source_chars : gset Z) : gset Z :=
  get_common_chinese_chars ∩ source_chars.

Definition with_trace (st : State) (evs : list Event) : State :=
  {| files := files st; fonts := fonts st; trace := trace st ++ evs |}.

Section Runs.

Context (ft : FontTools) (src out : string) (st : State).

(** The subsetter object at the time [subset] is called, for a source font
    with contents [d]. *)
Definition the_subsetter (d : FontData) : Subsetter :=
  {| options := aggressive_options ft;
     unicodes_requested := chars_to_keep (font_chars d) |}.

(** The effects of lines 51-79 up to and including the call of [subset]. *)
Definition events_to_subset (d : FontData) : list Event :=
  [ EvPrint (OutReading src);
    EvOpen src (length (fonts st));
    EvPrint (OutSourceCount (len (font_chars d)));
    EvPrint (OutCommonCount (len get_common_chinese_chars));
    EvPrint (OutKeepCount (len (chars_to_keep (font_chars d))));
    EvPrint (OutRemoveCount (len (font_chars d) - len (chars_to_keep (font_chars d))));
    EvSubsetter (aggressive_options ft);
    EvPopulate (chars_to_keep (font_chars d));
    EvSubset (the_subsetter d) (length (fonts st)) ].

Definition events_to_save (d : FontData) : list Event :=
  events_to_subset d ++ [ EvPrint (OutSaving out); EvSave (length (fonts st)) out ].

(** The state after line 83, when the reduced font [d'] compiled to [bytes']. *)
Definition saved_state (d d' : FontData) (bytes' : list Byte.byte) : State :=
  {| files := <[out := bytes']> (files st);
     fonts := fonts st ++ [{| font_data := d'; font_open := false |}];
     trace := trace st ++ events_to_save d ++ [EvClose (length (fonts st))] |}.

(** Every way a call of [subset_font_aggressive] can go. *)
Inductive run_case : Result unit -> State -> Prop :=
| RunMissing :
    files st !! src = None ->
    run_case (Raise (FileNotFoundError src)) (with_trace st [EvPrint (OutReading src)])
| RunMalformed bytes msg :
    files st !! src = Some bytes ->
    ft_decode ft bytes = inl msg ->
    run_case (Raise (LibraryError msg)) (with_trace st [EvPrint (OutReading src)])
| RunNoCmap bytes d :
    files st !! src = Some bytes ->
    ft_decode ft bytes = inr d ->
    cmap_tables d = None ->
    run_case (Raise (KeyError "cmap"))
      {| files := files st;
         fonts := fonts st ++ [{| font_data := d; font_open := true |}];
         trace := trace st ++ [EvPrint (OutReading src); EvOpen src (length (fonts st))] |}
| RunSubsetFails bytes d tables msg :
    files st !! src = Some bytes ->
    ft_decode ft bytes = inr d ->
    cmap_tables d = Some tables ->
    ft_subset ft (the_subsetter d) d = inl msg ->
    run_case (Raise (LibraryError msg))
      {| files := files st;
         fonts := fonts st ++ [{| font_data := d; font_open := true |}];
         trace := trace st ++ events_to_subset d |}
| RunSaveFails bytes d tables d' msg :
    files st !! src = Some bytes ->
    ft_decode ft bytes = inr d ->
    cmap_tables d = Some tables ->
    ft_subset ft (the_subsetter d) d = inr d' ->
    ft_compile ft d' = inl msg ->
    run_case (Raise (LibraryError msg))
      {| files := files st;
         fonts := fonts st ++ [{| font_data := d'; font_open := true |}];
         trace := trace st ++ events_to_save d |}
| RunOpenFails bytes d tables d' bytes' f :
    files st !! src = Some bytes ->
    ft_decode ft bytes = inr d ->
    cmap_tables d = Some tables ->
    ft_subset ft (the_subsetter d) d = inr d' ->
    ft_compile ft d' = inr bytes' ->
    ft_write ft out bytes' = OpenFails f ->
    run_case (Raise (os_exception out f))
      {| files := files st;
         fonts := fonts st ++ [{| font_data := d'; font_open := true |}];
         trace := trace st ++ events_to_save d |}
| RunWriteFails bytes d tables d' bytes' msg written :
    files st !! src = Some bytes ->
    ft_decode ft bytes = inr d ->
    cmap_tables d = Some tables ->
    ft_subset ft (the_subsetter d) d = inr d' ->
    ft_compile ft d' = inr bytes' ->
    ft_write ft out bytes' = WriteFails msg written ->
    run_case (Raise (OSError msg))
      {| files := <[out := take written bytes']> (files st);
         fonts := fonts st ++ [{| font_data := d'; font_open := true |}];
         trace := trace st ++ events_to_save d |}
| RunSaved bytes d tables d' bytes' r st' :
    files st !! src = Some bytes ->
    ft_decode ft bytes = inr d ->
    cmap_tables d = Some tables ->
    ft_subset ft (the_subsetter d) d = inr d' ->
    ft_compile ft d' = inr bytes' ->
    ft_write ft out bytes' = Written ->
    report_sizes src out (saved_state d d' bytes') = (r, st') ->
    run_case r st'.

End Runs.

(** The effects a run added to the trace. *)
Definition new_events (st st' : State) : list Event :=
  drop (length (trace st)) (trace st').

(** The three header lines printed for a job (lines 113-115). *)
Definition job_header (source_name : string) : list Event :=
  [EvPrint OutRule; EvPrint (OutProcessing source_name); EvPrint OutRule].

(** The completion banner (lines 129-131). *)
Definition completion_banner : list Event :=
  [EvPrint OutRule; EvPrint OutAllDone; EvPrint OutRule].

(** ** Statements about the common-character set *)

(** The inclusive range [lo..hi] as a set. *)
Definition inclusive (r : Z * Z) : gset Z := list_to_set (seqZ r.1 (r.2 - r.1 + 1)).

(** The seven ranges the function adds, written with inclusive bounds. *)
Definition hard_coded_ranges : list (Z * Z) :=
  [ (0x20, 0x7E); (0x2000, 0x206E); (0x3000, 0x303E); (0x3040, 0x309E);
    (0x30A0, 0x30FE); (0x4E00, 0x9FA5); (0xFF00, 0xFFEE) ].

(** The Unicode blocks the specification names, with the bounds the Unicode
    standard gives them (printable ASCII is the range of graphic ASCII
    characters and the space). *)
Definition printable_ascii : Z * Z := (0x20, 0x7E).
Definition general_punctuation : Z * Z := (0x2000, 0x206F).
Definition cjk_symbols_and_punctuation : Z * Z := (0x3000, 0x303F).
Definition hiragana : Z * Z := (0x3040, 0x309F).
Definition katakana : Z * Z := (0x30A0, 0x30FF).
Definition cjk_unified_ideographs : Z * Z := (0x4E00, 0x9FFF).
Definition halfwidth_and_fullwidth_forms : Z * Z := (0xFF00, 0xFFEF).

Definition unicode_blocks : list (Z * Z) :=
  [ printable_ascii; general_punctuation; cjk_symbols_and_punctuation;
    halfwidth_and_fullwidth_forms; cjk_unified_ideographs; hiragana; katakana ].

(** The common-character set as the specification words it: the union of the
    named blocks, each in full. *)
Definition spec_common_chars : gset Z := ⋃ (inclusive <$> unicode_blocks).

(** The blocks whose last code point the function's ranges stop short of. *)
Definition blocks_short_by_one : list (Z * Z) :=
  [ general_punctuation; cjk_symbols_and_punctuation;
    halfwidth_and_fullwidth_forms; hiragana; katakana ].

(** ** What the script relies on from the subsetter

    The specification describes the library call as "the subsetting operation
    restricted to the keep set's code points".  Two readings are used: the
    reduced font maps no code point that was not both in the font and
    requested, and it maps exactly those. *)
Definition keeps_only_requested (ft : FontTools) : Prop :=
  forall s d d', ft_subset ft s d = inr d' ->
    font_chars d' ⊆ font_chars d ∩ unicodes_requested s.

Definition keeps_exactly_requested (ft : FontTools) : Prop :=
  forall s d d', ft_subset ft s d = inr d' ->
    font_chars d' = font_chars d ∩ unicodes_requested s.

(** ** Statements about the font handle *)

(** The object a call started in [st] creates has index [length (fonts st)];
    its handle is released in [st'] when the object is marked closed. *)
Definition handle_released (st st' : State) : Prop :=
  forall o, fonts st' !! length (fonts st) = Some o -> font_open o = false.

(** The specification's wording: released on every exit path. *)
Definition released_on_every_exit (ft : FontTools) (src out : string) (st : State) : Prop :=
  forall r st', subset_font_aggressive ft src out st = (r, st') -> handle_released st st'.

(** ** Statements about the size report *)

(** The value line 90 formats, from the two file sizes in bytes. *)
Definition reported_ratio (s1 s2 : Z) : spec_float :=
  let original_size := Float.div (Float.of_int s1) (Float.of_int (1024 * 1024)) in
  let new_size := Float.div (Float.of_int s2) (Float.of_int (1024 * 1024)) in
  Float.mul (Float.sub (Float.of_int 1) (Float.div new_size original_size))
            (Float.of_int 100).

(** The specification's formula [(1 - S2/S1) * 100], evaluated in binary64
    directly on the two sizes. *)
Definition spec_ratio (s1 s2 : Z) : spec_float :=
  Float.mul (Float.sub (Float.of_int 1) (Float.div (Float.of_int s2) (Float.of_int s1)))
            (Float.of_int 100).

(** Sets that have no element in common, pair by pair. *)
Fixpoint pairwise_disjoint (l : list (gset Z)) : Prop :=
  match l with
  | [] => True
  | X :: l' => Forall (fun Y => X ## Y) l' ∧ pairwise_disjoint l'
  end.

Arguments inclusive : simpl never.
Arguments len : simpl never.

(** The size report, when both files exist. *)
Definition report_events (s1 s2 : Z) : list Event :=
  let original_size := Float.div (Float.of_int s1) (Float.of_int (1024 * 1024)) in
  let new_size := Float.div (Float.of_int s2) (Float.of_int (1024 * 1024)) in
  [EvPrint (OutOriginalSize original_size); EvPrint (OutNewSize new_size)] ++
  if Float.is_zero original_size then []
  else EvPrint (OutRatio (reported_ratio s1 s2)) ::
       if Float.leb new_size (Float.of_int 20)
       then [EvPrint (OutWithinLimit new_size)]
       else [EvPrint (OutOverLimit new_size); EvPrint OutAdvice].


(** Effects that configure or apply the subsetter. *)
Definition is_subsetter_event (ev : Event) : Prop :=
  match ev with
  | EvSubsetter _ | EvPopulate _ | EvSubset _ _ => True
  | _ => False
  end.

(** The size in bytes [os.path.getsize] reports for the source once the output
    has been written (the two paths may coincide). *)
Definition source_size_after_save (src out : string)
    (bytes bytes' : list Byte.byte) : Z :=
  Z.of_nat (length (if decide (src = out) then bytes' else bytes)).

(** ** Concrete inputs for the reference instance *)

Module Sample.

Definition src1 : string := "/fonts/SourceHanSerifSC.otf".
Definition out1 : string := "/fonts/SourceHanSerifSC-subset.otf".
Definition src2 : string := "/fonts/SourceHanSansSC-Bold.otf".
Definition out2 : string := "/fonts/SourceHanSansSC-Bold-subset.otf".

Definition no_font : FontData :=
  {| cmap_tables := None; glyph_order := []; table_tags := [] |}.

Definition decoded (bytes : list Byte.byte) : FontData :=
  match Ref.decode bytes with inr d => d | inl _ => no_font end.

(** The decoded source font of the first job, its reduction and the bytes
    written for it. *)
Definition font_A : FontData := decoded Ref.font_A_zhong_emoji.

Definition reduced_A : FontData :=
  Ref.reduce (the_subsetter Ref.fonttools font_A) font_A.

Definition compiled_A : list Byte.byte := Ref.serialise reduced_A.

(** The decoded source font of the second job: it has no cmap. *)
Definition font_B : FontData := decoded Ref.font_without_cmap.

(** A library instance whose subsetter changes nothing and whose
    serialisation is a fixed four-byte file; used where only file sizes
    matter. *)
Definition small_file : list Byte.byte := [Byte.x01; Byte.x00; Byte.x00; Byte.x41].

Definition identity_tools : FontTools :=
  {| ft_decode := Ref.decode; ft_default_options := Ref.default_options;
     ft_subset := fun _ d => inr d; ft_compile := fun _ => inr small_file;
     ft_write := fun _ _ => Written |}.

(** The same library on a system where the output path cannot be created,
    as when it is a dangling link into a directory that does not exist:
    [open(path, "wb")] raises [FileNotFoundError]. *)
Definition dangling_output_tools : FontTools :=
  {| ft_decode := Ref.decode; ft_default_options := Ref.default_options;
     ft_subset := fun _ d => inr d; ft_compile := fun _ => inr small_file;
     ft_write := fun _ _ => OpenFails NotFound |}.

(** The same library on a full disk: the write stops after two bytes. *)
Definition full_disk_tools : FontTools :=
  {| ft_decode := Ref.decode; ft_default_options := Ref.default_options;
     ft_subset := fun _ d => inr d; ft_compile := fun _ => inr small_file;
     ft_write := fun _ _ => WriteFails "No space left on device" 2 |}.

End Sample.

(** ** Further sample inputs *)

Module More.

(** A font that declares only an emoji, and a font that declares only common
    characters. *)
Definition font_emoji_only : list Byte.byte := Byte.x01 :: Ref.encode_code 0x1F600.

Definition font_common_only : list Byte.byte :=
  Byte.x01 :: Ref.encode_code 0x41 ++ Ref.encode_code 0x4E2D.

Definition data_emoji_only : FontData := Sample.decoded font_emoji_only.
Definition data_common_only : FontData := Sample.decoded font_common_only.

Definition disk_emoji : State :=
  {| files := {[ Sample.src1 := font_emoji_only ]}; fonts := []; trace := [] |}.

Definition disk_common : State :=
  {| files := {[ Sample.src1 := font_common_only ]}; fonts := []; trace := [] |}.

End More.

(** The output size, in bytes, up to which line 92 reports success:
    [20 * 1024 * 1024]. *)
Definition cdn_limit_bytes : Z := 20971520.

(** A size in bytes as the script prints it, in mebibytes. *)
Definition mebibytes (s : Z) : spec_float :=
  Float.div (Float.of_int s) (Float.of_int (1024 * 1024)).

Ltac norm_trace := repeat rewrite <- app_assoc; simpl.

(** * Properties *)

Lemma common_unfold :
  get_common_chinese_chars =
    set_update (set_update (set_update (set_update (set_update (set_update
      (set_update ∅ (py_range 0x20 0x7F)) (py_range 0x2000 0x206F))
      (py_range 0x3000 0x303F)) (py_range 0xFF00 0xFFEF)) (py_range 0x4E00 0x9FA6))
      (py_range 0x3040 0x309F)) (py_range 0x30A0 0x30FF).
Proof. reflexivity. Qed.

#[local] Opaque get_common_chinese_chars.

(** ** The common-character set *)

Lemma elem_of_py_range (c start stop : Z) :
  c ∈ py_range start stop ↔ start ≤ c < stop.
Proof. unfold py_range. rewrite elem_of_seqZ. lia. Qed.

Lemma set_update_union (s : gset Z) (it : list Z) :
  set_update s it = s ∪ list_to_set it.
Proof.
  unfold set_update. revert s.
  induction it as [|x it IH]; intros s; simpl.
  - by rewrite (right_id_L ∅ (∪)).
  - by rewrite IH, (assoc_L (∪)).
Qed.

Lemma elem_of_set_update (c : Z) (s : gset Z) (it : list Z) :
  c ∈ set_update s it ↔ c ∈ s ∨ c ∈ it.
Proof. by rewrite set_update_union, elem_of_union, elem_of_list_to_set. Qed.

Lemma elem_of_common (c : Z) :
  c ∈ get_common_chinese_chars ↔
    0x20 ≤ c ≤ 0x7E ∨ 0x2000 ≤ c ≤ 0x206E ∨ 0x3000 ≤ c ≤ 0x303E ∨
    0x3040 ≤ c ≤ 0x309E ∨ 0x30A0 ≤ c ≤ 0x30FE ∨ 0x4E00 ≤ c ≤ 0x9FA5 ∨
    0xFF00 ≤ c ≤ 0xFFEE.
Proof.
  rewrite common_unfold.
  rewrite !elem_of_set_update, !elem_of_py_range, elem_of_empty. lia.
Qed.

Lemma elem_of_inclusive (c : Z) (r : Z * Z) : c ∈ inclusive r ↔ r.1 ≤ c ≤ r.2.
Proof. unfold inclusive. rewrite elem_of_list_to_set, elem_of_seqZ. lia. Qed.

Lemma size_inclusive (r : Z * Z) : size (inclusive r) = Z.to_nat (r.2 - r.1 + 1).
Proof.
  unfold inclusive. rewrite size_list_to_set by apply NoDup_seqZ.
  apply length_seqZ.
Qed.

Lemma len_inclusive (r : Z * Z) : len (inclusive r) = Z.max 0 (r.2 - r.1 + 1).
Proof. unfold len. rewrite size_inclusive. lia. Qed.

Lemma elem_of_ranges (c : Z) (rs : list (Z * Z)) :
  c ∈ ⋃ (inclusive <$> rs) ↔ ∃ r, r ∈ rs ∧ r.1 ≤ c ≤ r.2.
Proof.
  rewrite elem_of_union_list. split.
  - intros (X & HX & Hc). apply list_elem_of_fmap in HX as (r & -> & Hr).
    exists r. by rewrite <- elem_of_inclusive.
  - intros (r & Hr & Hc). exists (inclusive r). split.
    + apply list_elem_of_fmap. by exists r.
    + by apply elem_of_inclusive.
Qed.

Lemma common_is_hard_coded_ranges :
  get_common_chinese_chars = ⋃ (inclusive <$> hard_coded_ranges).
Proof.
  apply set_eq. intros c. rewrite elem_of_common, elem_of_ranges.
  unfold hard_coded_ranges. split.
  - intros H. 
    destruct H as [H|[H|[H|[H|[H|[H|H]]]]]];
      [exists (0x20, 0x7E) | exists (0x2000, 0x206E) | exists (0x3000, 0x303E)
      | exists (0x3040, 0x309E) | exists (0x30A0, 0x30FE) | exists (0x4E00, 0x9FA5)
      | exists (0xFF00, 0xFFEE)]; (split; [ repeat constructor | simpl; lia ]).
  - intros (r & Hr & Hc).
    repeat (apply elem_of_cons in Hr as [->|Hr]; [simpl in Hc; lia|]).
    by apply elem_of_nil in Hr.
Qed.

Lemma hard_coded_ranges_disjoint (r1 r2 : Z * Z) :
  r1 ∈ hard_coded_ranges -> r2 ∈ hard_coded_ranges -> r1 ≠ r2 ->
  inclusive r1 ## inclusive r2.
Proof.
  intros H1 H2 Hne c Hc1 Hc2.
  apply elem_of_inclusive in Hc1. apply elem_of_inclusive in Hc2.
  unfold hard_coded_ranges in *.
  repeat (apply elem_of_cons in H1 as [->|H1]);
    try (by apply elem_of_nil in H1);
    repeat (apply elem_of_cons in H2 as [->|H2]);
    try (by apply elem_of_nil in H2);
    simpl in *; try lia; by destruct Hne.
Qed.

Lemma disjoint_ranges (r : Z * Z) (rs : list (Z * Z)) :
  (forall c r', r.1 ≤ c ≤ r.2 -> r' ∈ rs -> ¬ r'.1 ≤ c ≤ r'.2) ->
  inclusive r ## ⋃ (inclusive <$> rs).
Proof.
  intros H c Hc Hc'. apply elem_of_inclusive in Hc.
  apply elem_of_ranges in Hc' as (r' & Hr' & Hc'). by eapply H.
Qed.

Lemma size_ranges_cons (r : Z * Z) (rs : list (Z * Z)) :
  (forall c r', r.1 ≤ c ≤ r.2 -> r' ∈ rs -> ¬ r'.1 ≤ c ≤ r'.2) ->
  len (⋃ (inclusive <$> (r :: rs))) = Z.max 0 (r.2 - r.1 + 1) + len (⋃ (inclusive <$> rs)).
Proof.
  intros H. unfold len. rewrite fmap_cons. simpl union_list.
  rewrite size_union by by apply disjoint_ranges.
  rewrite size_inclusive. lia.
Qed.

Lemma size_common : len get_common_chinese_chars = 21600.
Proof.
  rewrite common_is_hard_coded_ranges. unfold hard_coded_ranges.
  repeat (rewrite size_ranges_cons;
    [ | intros c r' Hc Hr'; simpl in Hc;
        repeat (apply elem_of_cons in Hr' as [->|Hr']; [simpl; lia|]);
        by apply elem_of_nil in Hr' ]).
  reflexivity.
Qed.

Lemma common_bounds (c : Z) : c ∈ get_common_chinese_chars -> 0x20 ≤ c ≤ 0xFFEE.
Proof. rewrite elem_of_common. lia. Qed.

Lemma elem_of_chars_to_keep (c : Z) (source_chars : gset Z) :
  c ∈ chars_to_keep source_chars ↔ c ∈ get_common_chinese_chars ∧ c ∈ source_chars.
Proof. unfold chars_to_keep. apply elem_of_intersection. Qed.

(** ** Running the script *)

Lemma left_id_keep (X : gset Z) : ∅ ∪ X = X.
Proof. apply (left_id_L ∅ (∪)). Qed.

Lemma new_events_with_trace (st : State) (fs : gmap string (list Byte.byte))
    (fo : list FontObj) (evs : list Event) :
  new_events st {| files := fs; fonts := fo; trace := trace st ++ evs |} = evs.
Proof. unfold new_events. simpl. apply drop_app_length. Qed.

Lemma subset_font_aggressive_cases (ft : FontTools) (src out : string) (st : State) :
  run_case ft src out st
    (subset_font_aggressive ft src out st).1 (subset_font_aggressive ft src out st).2.
Proof.
  unfold subset_font_aggressive, bind, print, emit, TTFont. simpl.
  destruct (files st !! src) as [bytes|] eqn:Hsrc; simpl.
  2: { by apply RunMissing. }
  destruct (ft_decode ft bytes) as [msg|d] eqn:Hdec; simpl.
  { by eapply RunMalformed. }
  unfold TTFont_cmap_tables, get_font, bind. simpl.
  rewrite list_lookup_middle by done. simpl.
  destruct (cmap_tables d) as [tables|] eqn:Hcmap; simpl.
  2: { norm_trace. by eapply RunNoCmap. }
  unfold ret, Subsetter_subset, bind, emit, get_font. simpl.
  rewrite list_lookup_middle by done. simpl.
  rewrite left_id_keep.
  assert (Hchars : source_chars_of tables = font_chars d).
  { unfold font_chars. by rewrite Hcmap. }
  rewrite Hchars. fold (chars_to_keep (font_chars d)). fold (the_subsetter ft d).
  destruct (ft_subset ft (the_subsetter ft d) d) as [msg|d'] eqn:Hsub; simpl.
  { norm_trace. by eapply RunSubsetFails. }
  unfold set_font, TTFont_save, TTFont_close, bind, emit, get_font, set_font. simpl.
  rewrite insert_app_r_alt by done. rewrite Nat.sub_diag. simpl.
  rewrite list_lookup_middle by done. simpl.
  destruct (ft_compile ft d') as [msg|bytes'] eqn:Hcomp; simpl.
  { norm_trace. by eapply RunSaveFails. }
  unfold write_file.
  destruct (ft_write ft out bytes') as [|f|wmsg written] eqn:Hwr; simpl.
  2: { norm_trace. by eapply RunOpenFails. }
  2: { unfold set_file, raise, bind. simpl. norm_trace. by eapply RunWriteFails. }
  unfold set_file. simpl.
  rewrite list_lookup_middle by done. simpl.
  rewrite insert_app_r_alt by done. rewrite Nat.sub_diag. simpl.
  norm_trace.
  eapply RunSaved; eauto.
  unfold saved_state, events_to_save, events_to_subset. simpl.
  by destruct (report_sizes _ _ _).
Qed.

Lemma run_cases (ft : FontTools) (src out : string) (st : State) r st' :
  subset_font_aggressive ft src out st = (r, st') -> run_case ft src out st r st'.
Proof.
  intros H. pose proof (subset_font_aggressive_cases ft src out st) as Hc.
  by rewrite H in Hc.
Qed.

Lemma report_sizes_spec (src out : string) (st : State) (b1 b2 : list Byte.byte) :
  files st !! src = Some b1 ->
  files st !! out = Some b2 ->
  let s1 := Z.of_nat (length b1) in
  let s2 := Z.of_nat (length b2) in
  report_sizes src out st =
    ((if Float.is_zero (Float.div (Float.of_int s1) (Float.of_int (1024 * 1024)))
      then Raise ZeroDivisionError else Ok tt),
     with_trace st (report_events s1 s2)).
Proof.
  intros H1 H2 s1 s2.
  unfold report_sizes, bind, os_path_getsize, print, emit, float_truediv, report_events,
    with_trace.
  simpl. rewrite H1. simpl. rewrite H2. simpl.
  fold s1 s2. unfold reported_ratio.
  set (osz := Float.div (Float.of_int s1) (Float.of_int (1024 * 1024))).
  set (nsz := Float.div (Float.of_int s2) (Float.of_int (1024 * 1024))).
  destruct (Float.is_zero osz) eqn:Hz; simpl.
  { unfold raise. norm_trace. reflexivity. }
  unfold ret, bind. simpl.
  destruct (Float.leb nsz (Float.of_int 20)); simpl; norm_trace; reflexivity.
Qed.

(** ** Claims about the common-character set *)

(** C8: [get_common_chinese_chars] returns exactly 21600 code points; it is
    the union of the seven inclusive ranges 0x20-0x7E, 0x2000-0x206E,
    0x3000-0x303E, 0x3040-0x309E, 0x30A0-0x30FE, 0x4E00-0x9FA5 and
    0xFF00-0xFFEE, which are pairwise disjoint and hold 95, 111, 63, 95, 95,
    20902 and 239 code points. *)
Theorem common_chars_count :
  len get_common_chinese_chars = 21600 ∧
  get_common_chinese_chars = ⋃ (inclusive <$> hard_coded_ranges) ∧
  pairwise_disjoint (inclusive <$> hard_coded_ranges) ∧
  len <$> (inclusive <$> hard_coded_ranges) = [95; 111; 63; 95; 95; 20902; 239] ∧
  95 + 111 + 63 + 95 + 95 + 20902 + 239 = 21600.
Proof.
  split; [apply size_common|].
  split; [apply common_is_hard_coded_ranges|].
  split.
  - unfold hard_coded_ranges. cbn [fmap list_fmap pairwise_disjoint].
    repeat split; repeat constructor;
      apply hard_coded_ranges_disjoint; unfold hard_coded_ranges;
      solve [ congruence | repeat constructor ].
  - split; [|reflexivity].
    unfold hard_coded_ranges. cbn [fmap list_fmap].
    rewrite !len_inclusive. reflexivity.
Qed.

(** C2, as the specification words it, fails: U+9FA6 lies in the CJK Unified
    Ideographs block (U+4E00-U+9FFF) and is not in the returned set, so the
    set is not the union of the named blocks in full. *)
Lemma common_chars_not_full_blocks :
  0x9FA6 ∈ inclusive cjk_unified_ideographs ∧
  0x9FA6 ∈ spec_common_chars ∧
  (0x9FA6 ∉ get_common_chinese_chars) ∧
  (get_common_chinese_chars ≠ spec_common_chars).
Proof.
  assert (H1 : 0x9FA6 ∈ inclusive cjk_unified_ideographs).
  { apply elem_of_inclusive. simpl. lia. }
  assert (H2 : 0x9FA6 ∈ spec_common_chars).
  { apply elem_of_ranges. exists cjk_unified_ideographs. split.
    - unfold unicode_blocks. repeat constructor.
    - simpl. lia. }
  assert (H3 : 0x9FA6 ∉ get_common_chinese_chars).
  { rewrite elem_of_common. lia. }
  split; [exact H1|]. split; [exact H2|]. split; [exact H3|].
  intros Heq. apply H3. rewrite Heq. exact H2.
Qed.

(** C2, amended: every member of the returned set lies in one of the named
    Unicode blocks; the set holds all of printable ASCII; of the CJK Unified
    Ideographs block it holds exactly U+4E00-U+9FA5; and of General
    Punctuation, CJK Symbols and Punctuation, Halfwidth and Fullwidth Forms,
    Hiragana and Katakana it holds every code point below the block's last
    one. *)
Theorem common_chars_blocks (c : Z) :
  (c ∈ get_common_chinese_chars -> c ∈ spec_common_chars) ∧
  (c ∈ inclusive printable_ascii -> c ∈ get_common_chinese_chars) ∧
  (c ∈ inclusive cjk_unified_ideographs ->
     (c ∈ get_common_chinese_chars ↔ c ≤ 0x9FA5)) ∧
  (forall b, b ∈ blocks_short_by_one -> b.1 ≤ c < b.2 -> c ∈ get_common_chinese_chars).
Proof.
  split; [|split; [|split]].
  - rewrite elem_of_common. intros H. apply elem_of_ranges. unfold unicode_blocks.
    destruct H as [H|[H|[H|[H|[H|[H|H]]]]]];
      [ exists printable_ascii | exists general_punctuation
      | exists cjk_symbols_and_punctuation | exists hiragana | exists katakana
      | exists cjk_unified_ideographs | exists halfwidth_and_fullwidth_forms ];
      (split; [ repeat constructor | simpl; lia ]).
  - intros H. apply elem_of_inclusive in H. simpl in H.
    apply elem_of_common. lia.
  - intros H. apply elem_of_inclusive in H. simpl in H.
    rewrite elem_of_common. lia.
  - intros b Hb Hc. apply elem_of_common. unfold blocks_short_by_one in Hb.
    repeat (apply elem_of_cons in Hb as [->|Hb]; [simpl in Hc; lia|]).
    by apply elem_of_nil in Hb.
Qed.

Lemma common_chars_blocks_witness :
  0x3042 ∈ get_common_chinese_chars ∧ 0x3042 ∈ spec_common_chars.
Proof.
  destruct (common_chars_blocks 0x3042) as (Hin & _ & _ & Hshort).
  assert (H : 0x3042 ∈ get_common_chinese_chars).
  { apply (Hshort hiragana).
    - unfold blocks_short_by_one. repeat constructor.
    - simpl. lia. }
  split; [exact H | exact (Hin H)].
Defined.

Lemma report_events_prints (s1 s2 : Z) (ev : Event) :
  ev ∈ report_events s1 s2 -> ∃ o, ev = EvPrint o.
Proof.
  unfold report_events. cbv zeta. intros H.
  apply elem_of_app in H as [H|H].
  - repeat (apply elem_of_cons in H as [->|H]; [by eexists|]).
    by apply elem_of_nil in H.
  - destruct (Float.is_zero _); [by apply elem_of_nil in H|].
    apply elem_of_cons in H as [->|H]; [by eexists|].
    destruct (Float.leb _ _);
      repeat (apply elem_of_cons in H as [->|H]; [by eexists|]);
      by apply elem_of_nil in H.
Qed.

(** After a successful save both files exist, so the size report either
    completes or stops at the division. *)
Lemma report_after_save (ft : FontTools) (src out : string) (st : State)
    (bytes : list Byte.byte) (d d' : FontData) (bytes' : list Byte.byte) r st' :
  files st !! src = Some bytes ->
  report_sizes src out (saved_state ft src out st d d' bytes') = (r, st') ->
  st' = with_trace (saved_state ft src out st d d' bytes')
          (report_events (source_size_after_save src out bytes bytes')
                         (Z.of_nat (length bytes'))) ∧
  r = (if Float.is_zero (Float.div
            (Float.of_int (source_size_after_save src out bytes bytes'))
            (Float.of_int (1024 * 1024)))
       then Raise ZeroDivisionError else Ok tt).
Proof.
  intros Hsrc Hrep.
  assert (H1 : files (saved_state ft src out st d d' bytes') !! src =
               Some (if decide (src = out) then bytes' else bytes)).
  { unfold saved_state. simpl. destruct (decide (src = out)) as [->|Hne].
    - apply lookup_insert_eq.
    - rewrite lookup_insert_ne by done. exact Hsrc. }
  assert (H2 : files (saved_state ft src out st d d' bytes') !! out = Some bytes').
  { unfold saved_state. simpl. apply lookup_insert_eq. }
  rewrite (report_sizes_spec _ _ _ _ _ H1 H2) in Hrep.
  unfold source_size_after_save.
  inversion Hrep. split; reflexivity.
Qed.

Lemma process_font_unfold (ft : FontTools) (script_dir source_name output_name : string)
    (st : State) :
  process_font ft script_dir (source_name, output_name) st =
    match subset_font_aggressive ft (os_path_join script_dir source_name)
            (os_path_join script_dir output_name)
            (with_trace st (job_header source_name)) with
    | (Ok _, st1) => (Ok tt, with_trace st1 [EvPrint OutJobDone])
    | (Raise (FileNotFoundError p), st1) =>
        (Ok tt, with_trace st1 [EvPrint (OutNotFound (os_path_join script_dir source_name))])
    | (Raise e, st1) =>
        (Ok tt, with_trace st1 [EvPrint (OutError e); EvPrint (OutTraceback e)])
    end.
Proof.
  unfold process_font, try_except, bind, print, emit. cbn [trace files fonts].
  unfold with_trace, job_header. cbn [trace files fonts].
  rewrite <- !app_assoc. cbn [app].
  destruct (subset_font_aggressive _ _ _ _) as [[[]|e] st1]; [reflexivity|].
  destruct e; cbn [trace files fonts]; rewrite <- ?app_assoc; reflexivity.
Qed.

Lemma main_unfold (ft : FontTools) (script_dir : string) (st st1 st2 : State) :
  process_font ft script_dir ("SourceHanSerifSC.otf", "SourceHanSerifSC-subset.otf") st
    = (Ok tt, st1) ->
  process_font ft script_dir
      ("SourceHanSansSC-Bold.otf", "SourceHanSansSC-Bold-subset.otf") st1
    = (Ok tt, st2) ->
  main ft script_dir st = (Ok tt, with_trace st2 completion_banner).
Proof.
  intros H1 H2.
  unfold main, fonts_to_process, for_each, bind. rewrite H1, H2.
  unfold ret, print, emit, with_trace, completion_banner. cbn [trace files fonts].
  rewrite <- !app_assoc. reflexivity.
Qed.

Lemma process_font_total (ft : FontTools) (script_dir : string) (job : string * string)
    (st : State) :
  ∃ st', process_font ft script_dir job st = (Ok tt, st').
Proof.
  destruct job as [sn on]. rewrite process_font_unfold.
  destruct (subset_font_aggressive _ _ _ _) as [[[]|e] st1]; [by eexists|].
  destruct e; by eexists.
Qed.

(** Deterministic paths of a run. *)
Lemma run_missing (ft : FontTools) (src out : string) (st : State) :
  files st !! src = None ->
  subset_font_aggressive ft src out st =
    (Raise (FileNotFoundError src), with_trace st [EvPrint (OutReading src)]).
Proof.
  intros H. destruct (subset_font_aggressive ft src out st) as [r st'] eqn:Hrun.
  apply run_cases in Hrun. inversion Hrun; subst; congruence.
Qed.

Lemma run_no_cmap (ft : FontTools) (src out : string) (st : State)
    (bytes : list Byte.byte) (d : FontData) :
  files st !! src = Some bytes ->
  ft_decode ft bytes = inr d ->
  cmap_tables d = None ->
  subset_font_aggressive ft src out st =
    (Raise (KeyError "cmap"),
     {| files := files st;
        fonts := fonts st ++ [{| font_data := d; font_open := true |}];
        trace := trace st ++ [EvPrint (OutReading src); EvOpen src (length (fonts st))] |}).
Proof.
  intros H1 H2 H3. destruct (subset_font_aggressive ft src out st) as [r st'] eqn:Hrun.
  apply run_cases in Hrun. inversion Hrun; subst; congruence.
Qed.

Lemma run_saved (ft : FontTools) (src out : string) (st : State)
    (bytes : list Byte.byte) (d d' : FontData) (bytes' : list Byte.byte) :
  files st !! src = Some bytes ->
  ft_decode ft bytes = inr d ->
  is_Some (cmap_tables d) ->
  ft_subset ft (the_subsetter ft d) d = inr d' ->
  ft_compile ft d' = inr bytes' ->
  ft_write ft out bytes' = Written ->
  subset_font_aggressive ft src out st =
    ((if Float.is_zero (Float.div
            (Float.of_int (source_size_after_save src out bytes bytes'))
            (Float.of_int (1024 * 1024)))
      then Raise ZeroDivisionError else Ok tt),
     with_trace (saved_state ft src out st d d' bytes')
       (report_events (source_size_after_save src out bytes bytes')
                      (Z.of_nat (length bytes')))).
Proof.
  intros H1 H2 [tables H3] H4 H5 H6.
  destruct (subset_font_aggressive ft src out st) as [r st'] eqn:Hrun.
  apply run_cases in Hrun. inversion Hrun; subst; try congruence.
  assert (d0 = d) by congruence. subst d0.
  assert (d'0 = d') by congruence. subst d'0.
  assert (bytes'0 = bytes') by congruence. subst bytes'0.
  assert (bytes0 = bytes) by congruence. subst bytes0.
  match goal with H : report_sizes _ _ _ = _ |- _ =>
    destruct (report_after_save _ _ _ _ _ _ _ _ _ _ H1 H) as [-> ->] end.
  reflexivity.
Qed.

Lemma run_open_fails (ft : FontTools) (src out : string) (st : State)
    (bytes : list Byte.byte) (d d' : FontData) (bytes' : list Byte.byte) (f : OSFailure) :
  files st !! src = Some bytes ->
  ft_decode ft bytes = inr d ->
  is_Some (cmap_tables d) ->
  ft_subset ft (the_subsetter ft d) d = inr d' ->
  ft_compile ft d' = inr bytes' ->
  ft_write ft out bytes' = OpenFails f ->
  subset_font_aggressive ft src out st =
    (Raise (os_exception out f),
     {| files := files st;
        fonts := fonts st ++ [{| font_data := d'; font_open := true |}];
        trace := trace st ++ events_to_save ft src out st d |}).
Proof.
  intros H1 H2 [tables H3] H4 H5 H6.
  destruct (subset_font_aggressive ft src out st) as [r st'] eqn:Hrun.
  apply run_cases in Hrun. inversion Hrun; subst; congruence.
Qed.

Lemma run_write_fails (ft : FontTools) (src out : string) (st : State)
    (bytes : list Byte.byte) (d d' : FontData) (bytes' : list Byte.byte)
    (msg : string) (written : nat) :
  files st !! src = Some bytes ->
  ft_decode ft bytes = inr d ->
  is_Some (cmap_tables d) ->
  ft_subset ft (the_subsetter ft d) d = inr d' ->
  ft_compile ft d' = inr bytes' ->
  ft_write ft out bytes' = WriteFails msg written ->
  subset_font_aggressive ft src out st =
    (Raise (OSError msg),
     {| files := <[out := take written bytes']> (files st);
        fonts := fonts st ++ [{| font_data := d'; font_open := true |}];
        trace := trace st ++ events_to_save ft src out st d |}).
Proof.
  intros H1 H2 [tables H3] H4 H5 H6.
  destruct (subset_font_aggressive ft src out st) as [r st'] eqn:Hrun.
  apply run_cases in Hrun. inversion Hrun; subst; congruence.
Qed.

Lemma not_subsetter_print (o : Output) : ¬ is_subsetter_event (EvPrint o).
Proof. simpl. tauto. Qed.

(** The effects of a run: it stops before the subsetter is created, or it
    performs [events_to_subset] and nothing that touches the subsetter
    afterwards. *)
Lemma run_events (ft : FontTools) (src out : string) (st : State) r st' :
  subset_font_aggressive ft src out st = (r, st') ->
  new_events st st' = [EvPrint (OutReading src)] ∨
  new_events st st' = [EvPrint (OutReading src); EvOpen src (length (fonts st))] ∨
  ∃ d post,
    new_events st st' = events_to_subset ft src st d ++ post ∧
    Forall (fun ev => ¬ is_subsetter_event ev) post.
Proof.
  intros Hrun. apply run_cases in Hrun.
  inversion Hrun; subst.
  - left. apply new_events_with_trace.
  - left. apply new_events_with_trace.
  - right; left. apply new_events_with_trace.
  - right; right. exists d, []. split; [|constructor].
    rewrite new_events_with_trace. by rewrite app_nil_r.
  - right; right. exists d, [EvPrint (OutSaving out); EvSave (length (fonts st)) out].
    split; [apply new_events_with_trace|].
    repeat constructor; simpl; tauto.
  - right; right. exists d, [EvPrint (OutSaving out); EvSave (length (fonts st)) out].
    split; [apply new_events_with_trace|].
    repeat constructor; simpl; tauto.
  - right; right. exists d, [EvPrint (OutSaving out); EvSave (length (fonts st)) out].
    split; [apply new_events_with_trace|].
    repeat constructor; simpl; tauto.
  - right; right.
    match goal with H : report_sizes _ _ _ = _, H1 : files st !! src = Some _ |- _ =>
      destruct (report_after_save _ _ _ _ _ _ _ _ _ _ H1 H) as [-> _] end.
    eexists d, _. split.
    + unfold with_trace, saved_state, events_to_save, new_events. cbn [trace].
      rewrite <- !app_assoc. rewrite drop_app_length. reflexivity.
    + apply Forall_app. split; [repeat constructor; simpl; tauto|].
      apply Forall_app. split; [repeat constructor; simpl; tauto|].
      apply Forall_forall. intros ev Hev.
      apply report_events_prints in Hev as [o ->]. apply not_subsetter_print.
Qed.

(** ** Character coverage *)

Lemma elem_of_dict_keys (c : Z) (m : gmap Z string) :
  c ∈ dict_keys m ↔ is_Some (m !! c).
Proof.
  unfold dict_keys. rewrite list_elem_of_fmap. split.
  - intros ([k v] & -> & H). apply elem_of_map_to_list in H. by eexists.
  - intros [v H]. exists (c, v). split; [done|]. by apply elem_of_map_to_list.
Qed.

Lemma elem_of_source_chars_from (c : Z) (tables : list CmapSubtable) (acc : gset Z) :
  c ∈ foldl (fun source_chars table => set_update source_chars (dict_keys (cmap table)))
        acc tables
  ↔ c ∈ acc ∨ ∃ t, t ∈ tables ∧ is_Some (cmap t !! c).
Proof.
  revert acc. induction tables as [|t tables IH]; intros acc; simpl.
  - split; [by left|]. intros [H|(t & Ht & _)]; [done|]. by apply elem_of_nil in Ht.
  - rewrite IH, elem_of_set_update, elem_of_dict_keys. split.
    + intros [[H|H]|(t' & Ht' & H)].
      * by left.
      * right. exists t. split; [constructor|done].
      * right. exists t'. split; [by constructor|done].
    + intros [H|(t' & Ht' & H)]; [by left; left|].
      apply elem_of_cons in Ht' as [->|Ht'].
      * by left; right.
      * right. by exists t'.
Qed.

Lemma elem_of_source_chars_of (c : Z) (tables : list CmapSubtable) :
  c ∈ source_chars_of tables ↔ ∃ t, t ∈ tables ∧ is_Some (cmap t !! c).
Proof.
  unfold source_chars_of. rewrite elem_of_source_chars_from.
  split; [|by right]. intros [H|H]; [|done]. by apply elem_of_empty in H.
Qed.

Lemma elem_of_font_chars (c : Z) (d : FontData) :
  c ∈ font_chars d ↔
    ∃ tables t, cmap_tables d = Some tables ∧ t ∈ tables ∧ is_Some (cmap t !! c).
Proof.
  unfold font_chars. destruct (cmap_tables d) as [tables|].
  - rewrite elem_of_source_chars_of. split.
    + intros (t & Ht & H). by exists tables, t.
    + intros (tables' & t & Heq & Ht & H). inversion Heq; subst. by exists t.
  - split; [intros H; by apply elem_of_empty in H|].
    intros (tables' & t & Heq & _). discriminate.
Qed.

(** The reference subsetter keeps exactly the requested code points. *)
Lemma ref_keeps_exactly_requested : keeps_exactly_requested Ref.fonttools.
Proof.
  intros s d d' H. simpl in H. unfold Ref.subset, Ref.reduce in H.
  inversion H; subst; clear H.
  apply set_eq. intros c.
  rewrite elem_of_intersection, !elem_of_font_chars. cbn [cmap_tables]. split.
  - intros (tables & t & Heq & Ht & [g Hg]).
    destruct (cmap_tables d) as [ts|] eqn:Hd; [|discriminate].
    inversion Heq; subst; clear Heq.
    apply list_elem_of_fmap in Ht as (t0 & -> & Ht0).
    unfold Ref.prune_subtable in Hg. cbn [cmap] in Hg.
    apply map_lookup_filter_Some in Hg as [Hg Hu]. split; [|exact Hu].
    exists ts, t0. repeat split; [done|by eexists].
  - intros [(tables & t & Heq & Ht & [g Hg]) Hu]. rewrite Heq.
    exists (map (Ref.prune_subtable (unicodes_requested s)) tables),
           (Ref.prune_subtable (unicodes_requested s) t).
    split; [done|]. split.
    + apply list_elem_of_fmap. by exists t.
    + exists g. unfold Ref.prune_subtable. cbn [cmap].
      apply map_lookup_filter_Some. by split.
Qed.

Lemma exactly_only (ft : FontTools) : keeps_exactly_requested ft -> keeps_only_requested ft.
Proof. intros H s d d' Hs. by rewrite (H s d d' Hs). Qed.

Lemma ref_keeps_only_requested : keeps_only_requested Ref.fonttools.
Proof. apply exactly_only, ref_keeps_exactly_requested. Qed.

(** ** Claims about [subset_font_aggressive] *)

(** C1: when the source font is read, subset and saved, the font written to
    the output path covers only code points that the source font covers and
    that are in the common-character set: its coverage is a subset of each,
    hence of their intersection, and never a proper superset of either.  The
    subsetter is assumed to keep no code point that was not requested, and
    the write of the save to succeed. *)
Theorem output_coverage_subset (ft : FontTools) (src out : string) (st : State)
    (bytes : list Byte.byte) (d d' : FontData) (bytes' : list Byte.byte) :
  keeps_only_requested ft ->
  files st !! src = Some bytes ->
  ft_decode ft bytes = inr d ->
  is_Some (cmap_tables d) ->
  ft_subset ft (the_subsetter ft d) d = inr d' ->
  ft_compile ft d' = inr bytes' ->
  ft_write ft out bytes' = Written ->
  files (subset_font_aggressive ft src out st).2 !! out = Some bytes' ∧
  fonts (subset_font_aggressive ft src out st).2 !! length (fonts st)
    = Some {| font_data := d'; font_open := false |} ∧
  font_chars d' ⊆ font_chars d ∧
  font_chars d' ⊆ get_common_chinese_chars ∧
  font_chars d' ⊆ font_chars d ∩ get_common_chinese_chars ∧
  ¬ (font_chars d ⊂ font_chars d') ∧
  ¬ (get_common_chinese_chars ⊂ font_chars d').
Proof.
  intros Hlib Hsrc Hdec Hcmap Hsub Hcomp Hwr.
  rewrite (run_saved ft src out st bytes d d' bytes' Hsrc Hdec Hcmap Hsub Hcomp Hwr).
  cbn [snd with_trace saved_state files fonts].
  assert (Hin : forall c, c ∈ font_chars d' ->
                  c ∈ font_chars d ∧ c ∈ get_common_chinese_chars).
  { intros c Hc. apply (Hlib _ _ _ Hsub) in Hc.
    apply elem_of_intersection in Hc as [Hd Hk]. cbn [the_subsetter unicodes_requested] in Hk.
    apply elem_of_chars_to_keep in Hk as [Hcommon _]. exact (conj Hd Hcommon). }
  split; [apply lookup_insert_eq|].
  split; [apply list_lookup_middle; reflexivity|].
  split; [intros c Hc; exact (proj1 (Hin c Hc))|].
  split; [intros c Hc; exact (proj2 (Hin c Hc))|].
  split; [intros c Hc; apply elem_of_intersection; exact (Hin c Hc)|].
  split.
  - intros [_ Hn]. apply Hn. intros c Hc. exact (proj1 (Hin c Hc)).
  - intros [_ Hn]. apply Hn. intros c Hc. exact (proj2 (Hin c Hc)).
Qed.

Lemma output_coverage_subset_witness :
  files (subset_font_aggressive Ref.fonttools Sample.src1 Sample.out1 Ref.initial).2
    !! Sample.out1 = Some Sample.compiled_A ∧
  font_chars Sample.reduced_A ⊆ font_chars Sample.font_A ∩ get_common_chinese_chars.
Proof.
  destruct (output_coverage_subset Ref.fonttools Sample.src1 Sample.out1 Ref.initial
              Ref.font_A_zhong_emoji Sample.font_A Sample.reduced_A Sample.compiled_A)
    as (Hfile & _ & _ & _ & Hsub & _).
  - apply ref_keeps_only_requested.
  - vm_compute; reflexivity.
  - vm_compute; reflexivity.
  - eexists. vm_compute; reflexivity.
  - reflexivity.
  - reflexivity.
  - reflexivity.
  - exact (conj Hfile Hsub).
Defined.

(** C3: for a source font whose coverage is exactly {0x41, 0x4E2D, 0x1F600},
    0x41 and 0x4E2D are common characters and 0x1F600 is not, the keep set
    handed to the subsetter is exactly {0x41, 0x4E2D}, and the font written
    to the output path covers exactly those two code points.  The subsetter
    is assumed to keep exactly the requested code points of the font, and
    the write of the save to succeed. *)
Theorem scenario_A_zhong_emoji (ft : FontTools) (src out : string) (st : State)
    (bytes : list Byte.byte) (d d' : FontData) (bytes' : list Byte.byte) :
  keeps_exactly_requested ft ->
  files st !! src = Some bytes ->
  ft_decode ft bytes = inr d ->
  font_chars d = {[ 0x41; 0x4E2D; 0x1F600 ]} ->
  ft_subset ft (the_subsetter ft d) d = inr d' ->
  ft_compile ft d' = inr bytes' ->
  ft_write ft out bytes' = Written ->
  0x41 ∈ get_common_chinese_chars ∧
  0x4E2D ∈ get_common_chinese_chars ∧
  (0x1F600 ∉ get_common_chinese_chars) ∧
  chars_to_keep (font_chars d) = {[ 0x41; 0x4E2D ]} ∧
  EvPopulate {[ 0x41; 0x4E2D ]}
    ∈ new_events st (subset_font_aggressive ft src out st).2 ∧
  files (subset_font_aggressive ft src out st).2 !! out = Some bytes' ∧
  font_chars d' = {[ 0x41; 0x4E2D ]}.
Proof.
  intros Hlib Hsrc Hdec Hchars Hsub Hcomp Hwr.
  assert (Hkeep : chars_to_keep (font_chars d) = {[ 0x41; 0x4E2D ]}).
  { rewrite Hchars. apply set_eq. intros c.
    rewrite elem_of_chars_to_keep, elem_of_common, !elem_of_union, !elem_of_singleton.
    lia. }
  assert (Hcmap : is_Some (cmap_tables d)).
  { destruct (cmap_tables d) as [ts|] eqn:E; [eexists; reflexivity|].
    assert (H : 0x41 ∈ font_chars d).
    { rewrite Hchars, !elem_of_union, !elem_of_singleton. lia. }
    unfold font_chars in H. rewrite E in H. apply elem_of_empty in H. destruct H. }
  rewrite (run_saved ft src out st bytes d d' bytes' Hsrc Hdec Hcmap Hsub Hcomp Hwr).
  cbn [snd].
  split; [apply elem_of_common; lia|].
  split; [apply elem_of_common; lia|].
  split; [rewrite elem_of_common; lia|].
  split; [exact Hkeep|].
  split.
  - unfold with_trace, saved_state, events_to_save, new_events. cbn [trace].
    rewrite <- !app_assoc. rewrite drop_app_length. unfold events_to_subset.
    rewrite Hkeep. cbn [app]. do 7 apply list_elem_of_further. apply list_elem_of_here.
  - split; [apply lookup_insert_eq|].
    rewrite (Hlib _ _ _ Hsub). cbn [the_subsetter unicodes_requested].
    rewrite Hkeep, Hchars. apply set_eq. intros c.
    rewrite elem_of_intersection, !elem_of_union, !elem_of_singleton. lia.
Qed.

Lemma scenario_A_zhong_emoji_witness :
  chars_to_keep (font_chars Sample.font_A) = {[ 0x41; 0x4E2D ]} ∧
  font_chars Sample.reduced_A = {[ 0x41; 0x4E2D ]}.
Proof.
  destruct (scenario_A_zhong_emoji Ref.fonttools Sample.src1 Sample.out1 Ref.initial
              Ref.font_A_zhong_emoji Sample.font_A Sample.reduced_A Sample.compiled_A)
    as (_ & _ & _ & Hkeep & _ & _ & Hout).
  - apply ref_keeps_exactly_requested.
  - vm_compute; reflexivity.
  - vm_compute; reflexivity.
  - vm_compute; reflexivity.
  - reflexivity.
  - reflexivity.
  - reflexivity.
  - exact (conj Hkeep Hout).
Defined.

(** C5, as the specification words it, fails: the handle is not released on
    every exit path.  For a font without a ['cmap'] table the procedure
    raises [KeyError] and exits with the font object still open. *)
Lemma handle_left_open_when_cmap_missing :
  ¬ released_on_every_exit Ref.fonttools Sample.src2 Sample.out2 Ref.initial.
Proof.
  intros H.
  assert (Hrun := run_no_cmap Ref.fonttools Sample.src2 Sample.out2 Ref.initial
                    Ref.font_without_cmap Sample.font_B).
  specialize (Hrun ltac:(vm_compute; reflexivity) ltac:(vm_compute; reflexivity)
                   ltac:(vm_compute; reflexivity)).
  specialize (H _ _ Hrun {| font_data := Sample.font_B; font_open := true |}).
  specialize (H ltac:(vm_compute; reflexivity)).
  discriminate H.
Qed.

(** C5, amended: the font handle opened by the procedure is closed when the
    procedure returns normally and when the size report that follows the
    save stops at the division; when an exception is raised during coverage
    enumeration, subsetting or saving, the procedure exits with the handle
    still open. *)
Theorem handle_released_after_save (ft : FontTools) (src out : string) (st : State)
    (r : Result unit) (st' : State) (o : FontObj) :
  subset_font_aggressive ft src out st = (r, st') ->
  fonts st' !! length (fonts st) = Some o ->
  font_open o = match r with
                | Ok _ | Raise ZeroDivisionError => false
                | Raise _ => true
                end.
Proof.
  intros Hrun Ho. apply run_cases in Hrun.
  inversion Hrun; subst; cbn [fonts with_trace] in Ho.
  - rewrite lookup_ge_None_2 in Ho by lia. discriminate Ho.
  - rewrite lookup_ge_None_2 in Ho by lia. discriminate Ho.
  - rewrite list_lookup_middle in Ho by reflexivity. inversion Ho. reflexivity.
  - rewrite list_lookup_middle in Ho by reflexivity. inversion Ho. reflexivity.
  - rewrite list_lookup_middle in Ho by reflexivity. inversion Ho. reflexivity.
  - rewrite list_lookup_middle in Ho by reflexivity. inversion Ho.
    destruct f; reflexivity.
  - rewrite list_lookup_middle in Ho by reflexivity. inversion Ho. reflexivity.
  - match goal with H : report_sizes _ _ _ = _, H1 : files st !! src = Some _ |- _ =>
      destruct (report_after_save _ _ _ _ _ _ _ _ _ _ H1 H) as [-> ->] end.
    cbn [fonts with_trace saved_state] in Ho.
    rewrite list_lookup_middle in Ho by reflexivity. inversion Ho.
    destruct (Float.is_zero _); reflexivity.
Qed.

Lemma handle_released_after_save_witness :
  font_open {| font_data := Sample.font_B; font_open := true |} = true.
Proof.
  apply (handle_released_after_save Ref.fonttools Sample.src2 Sample.out2 Ref.initial
           (Raise (KeyError "cmap"))
           {| files := files Ref.initial;
              fonts := fonts Ref.initial
                         ++ [{| font_data := Sample.font_B; font_open := true |}];
              trace := trace Ref.initial
                         ++ [EvPrint (OutReading Sample.src2);
                             EvOpen Sample.src2 (length (fonts Ref.initial))] |}).
  - apply (run_no_cmap Ref.fonttools Sample.src2 Sample.out2 Ref.initial
             Ref.font_without_cmap Sample.font_B);
      vm_compute; reflexivity.
  - vm_compute; reflexivity.
Defined.

Lemma run_saved_events (ft : FontTools) (src out : string) (st : State)
    (bytes : list Byte.byte) (d d' : FontData) (bytes' : list Byte.byte) :
  files st !! src = Some bytes ->
  ft_decode ft bytes = inr d ->
  is_Some (cmap_tables d) ->
  ft_subset ft (the_subsetter ft d) d = inr d' ->
  ft_compile ft d' = inr bytes' ->
  ft_write ft out bytes' = Written ->
  new_events st (subset_font_aggressive ft src out st).2 =
    events_to_subset ft src st d ++
    [EvPrint (OutSaving out); EvSave (length (fonts st)) out; EvClose (length (fonts st))] ++
    report_events (source_size_after_save src out bytes bytes') (Z.of_nat (length bytes')).
Proof.
  intros Hsrc Hdec Hcmap Hsub Hcomp Hwr.
  rewrite (run_saved ft src out st bytes d d' bytes' Hsrc Hdec Hcmap Hsub Hcomp Hwr).
  unfold with_trace, saved_state, events_to_save, new_events. cbn [snd trace].
  rewrite <- !app_assoc. rewrite drop_app_length. reflexivity.
Qed.

(** C6: whenever the subsetting operation is applied, the subsetter was
    created just before with the options of lines 70-75: the ['DSIG'] table
    dropped, hinting stripped, legacy kerning removed, subroutines flattened
    and every layout feature kept, all other options as [subset.Options()]
    set them; the subsetter is configured and applied once. *)
Theorem subsetter_configuration (ft : FontTools) (src out : string) (st : State)
    (r : Result unit) (st' : State) (s : Subsetter) (id : nat) :
  subset_font_aggressive ft src out st = (r, st') ->
  EvSubset s id ∈ new_events st st' ->
  drop_tables (options s) = ["DSIG"] ∧
  hinting (options s) = false ∧
  legacy_kern (options s) = false ∧
  desubroutinize (options s) = true ∧
  layout_features (options s) = ["*"] ∧
  other_options (options s) = other_options (ft_default_options ft) ∧
  ∃ pre post,
    new_events st st' =
      pre ++ [EvSubsetter (options s); EvPopulate (unicodes_requested s); EvSubset s id]
          ++ post ∧
    Forall (fun ev => ¬ is_subsetter_event ev) pre ∧
    Forall (fun ev => ¬ is_subsetter_event ev) post.
Proof.
  intros Hrun Hin.
  destruct (run_events ft src out st r st' Hrun) as [He|[He|(d & post & He & Hpost)]];
    rewrite He in Hin.
  - apply elem_of_cons in Hin as [Hin|Hin]; [discriminate Hin|].
    apply elem_of_nil in Hin. destruct Hin.
  - apply elem_of_cons in Hin as [Hin|Hin]; [discriminate Hin|].
    apply elem_of_cons in Hin as [Hin|Hin]; [discriminate Hin|].
    apply elem_of_nil in Hin. destruct Hin.
  - apply elem_of_app in Hin as [Hin|Hin].
    + unfold events_to_subset in Hin.
      do 8 (apply elem_of_cons in Hin as [Hin|Hin]; [discriminate Hin|]).
      apply elem_of_cons in Hin as [Hin|Hin];
        [|apply elem_of_nil in Hin; destruct Hin].
      inversion Hin; subst s id; clear Hin.
      cbn [the_subsetter options unicodes_requested].
      repeat (split; [reflexivity|]).
      eexists _, post. split; [|split; [|exact Hpost]].
      * rewrite He. unfold events_to_subset.
        change (?a :: ?b :: ?c :: ?d :: ?e :: ?f :: ?rest)
          with ([a; b; c; d; e; f] ++ rest).
        rewrite <- app_assoc. reflexivity.
      * repeat constructor; simpl; tauto.
    + rewrite Forall_forall in Hpost. exfalso. apply (Hpost _ Hin). exact I.
Qed.

Lemma subsetter_configuration_witness :
  drop_tables (aggressive_options Ref.fonttools) = ["DSIG"] ∧
  layout_features (aggressive_options Ref.fonttools) = ["*"].
Proof.
  destruct (subsetter_configuration Ref.fonttools Sample.src1 Sample.out1 Ref.initial
              (subset_font_aggressive Ref.fonttools Sample.src1 Sample.out1 Ref.initial).1
              (subset_font_aggressive Ref.fonttools Sample.src1 Sample.out1 Ref.initial).2
              (the_subsetter Ref.fonttools Sample.font_A) 0%nat)
    as (H1 & _ & _ & _ & H5 & _).
  - apply surjective_pairing.
  - rewrite (run_saved_events Ref.fonttools Sample.src1 Sample.out1 Ref.initial
               Ref.font_A_zhong_emoji Sample.font_A Sample.reduced_A Sample.compiled_A);
      [ | vm_compute; reflexivity | vm_compute; reflexivity
        | eexists; vm_compute; reflexivity | reflexivity | reflexivity | reflexivity ].
    apply elem_of_app. left. unfold events_to_subset.
    do 8 apply list_elem_of_further. apply list_elem_of_here.
  - exact (conj H1 H5).
Defined.

Lemma with_trace_app (st : State) (a b : list Event) :
  with_trace (with_trace st a) b = with_trace st (a ++ b).
Proof. unfold with_trace. cbn [files fonts trace]. by rewrite app_assoc. Qed.

(** What the reduced font can cover, given the subsetter's contract. *)
Lemma reduced_font_chars (ft : FontTools) (d d' : FontData) (c : Z) :
  keeps_only_requested ft ->
  ft_subset ft (the_subsetter ft d) d = inr d' ->
  c ∈ font_chars d' ->
  c ∈ font_chars d ∧ c ∈ get_common_chinese_chars.
Proof.
  intros Hlib Hsub Hc. apply (Hlib _ _ _ Hsub) in Hc.
  apply elem_of_intersection in Hc as [Hd Hk].
  cbn [the_subsetter unicodes_requested] in Hk.
  apply elem_of_chars_to_keep in Hk as [Hcommon _]. exact (conj Hd Hcommon).
Qed.

(** The keep set handed to [populate] is the one of line 65. *)
Lemma populate_is_keep_set (ft : FontTools) (src out : string) (st : State)
    (r : Result unit) (st' : State) (u : gset Z) :
  subset_font_aggressive ft src out st = (r, st') ->
  EvPopulate u ∈ new_events st st' ->
  ∃ d, u = chars_to_keep (font_chars d).
Proof.
  intros Hrun Hin.
  destruct (run_events ft src out st r st' Hrun) as [He|[He|(d & post & He & Hpost)]];
    rewrite He in Hin.
  - apply elem_of_cons in Hin as [Hin|Hin]; [discriminate Hin|].
    apply elem_of_nil in Hin. destruct Hin.
  - apply elem_of_cons in Hin as [Hin|Hin]; [discriminate Hin|].
    apply elem_of_cons in Hin as [Hin|Hin]; [discriminate Hin|].
    apply elem_of_nil in Hin. destruct Hin.
  - apply elem_of_app in Hin as [Hin|Hin].
    + unfold events_to_subset in Hin.
      do 7 (apply elem_of_cons in Hin as [Hin|Hin]; [discriminate Hin|]).
      apply elem_of_cons in Hin as [Hin|Hin].
      * exists d.
        exact (f_equal (fun ev => match ev with EvPopulate u0 => u0 | _ => u end) Hin).
      * apply elem_of_cons in Hin as [Hin|Hin]; [discriminate Hin|].
        apply elem_of_nil in Hin. destruct Hin.
    + rewrite Forall_forall in Hpost. exfalso. apply (Hpost _ Hin). exact I.
Qed.

(** C9: every common character is at most 0xFFEE; hence the keep set of any
    run holds no code point outside the Basic Multilingual Plane, and, the
    subsetter keeping only requested code points, neither does the font that
    is written when the save succeeds: supplementary-plane characters such
    as U+1F600 are excluded from it. *)
Theorem keep_set_within_bmp (ft : FontTools) (src out : string) (st : State)
    (bytes : list Byte.byte) (d d' : FontData) (bytes' : list Byte.byte) :
  keeps_only_requested ft ->
  files st !! src = Some bytes ->
  ft_decode ft bytes = inr d ->
  is_Some (cmap_tables d) ->
  ft_subset ft (the_subsetter ft d) d = inr d' ->
  ft_compile ft d' = inr bytes' ->
  ft_write ft out bytes' = Written ->
  (forall c, c ∈ get_common_chinese_chars -> c ≤ 0xFFEE) ∧
  (forall source_chars c, c ∈ chars_to_keep source_chars -> c ≤ 0xFFEE ∧ c < 0x10000) ∧
  (forall ft2 src2 out2 st2 r2 st2' u c,
     subset_font_aggressive ft2 src2 out2 st2 = (r2, st2') ->
     EvPopulate u ∈ new_events st2 st2' -> c ∈ u -> c < 0x10000) ∧
  files (subset_font_aggressive ft src out st).2 !! out = Some bytes' ∧
  (forall c, c ∈ font_chars d' -> c < 0x10000) ∧
  (0x1F600 ∉ font_chars d').
Proof.
  intros Hlib Hsrc Hdec Hcmap Hsub Hcomp Hwr.
  assert (Hkeep : forall source_chars c,
            c ∈ chars_to_keep source_chars -> c ≤ 0xFFEE ∧ c < 0x10000).
  { intros sc c Hc. apply elem_of_chars_to_keep in Hc as [Hc _].
    apply common_bounds in Hc. lia. }
  split; [intros c Hc; apply common_bounds in Hc; lia|].
  split; [exact Hkeep|].
  split.
  { intros ft2 src2 out2 st2 r2 st2' u c Hrun Hin Hc.
    destruct (populate_is_keep_set _ _ _ _ _ _ _ Hrun Hin) as [d2 ->].
    exact (proj2 (Hkeep _ _ Hc)). }
  split.
  { rewrite (run_saved ft src out st bytes d d' bytes' Hsrc Hdec Hcmap Hsub Hcomp Hwr).
    cbn [snd with_trace saved_state files]. apply lookup_insert_eq. }
  assert (Hout : forall c, c ∈ font_chars d' -> c < 0x10000).
  { intros c Hc. destruct (reduced_font_chars ft d d' c Hlib Hsub Hc) as [_ Hcommon].
    apply common_bounds in Hcommon. lia. }
  split; [exact Hout|].
  intros Hc. apply Hout in Hc. lia.
Qed.

Lemma keep_set_within_bmp_witness :
  files (subset_font_aggressive Ref.fonttools Sample.src1 Sample.out1 Ref.initial).2
    !! Sample.out1 = Some Sample.compiled_A ∧
  (0x1F600 ∉ font_chars Sample.reduced_A).
Proof.
  destruct (keep_set_within_bmp Ref.fonttools Sample.src1 Sample.out1 Ref.initial
              Ref.font_A_zhong_emoji Sample.font_A Sample.reduced_A Sample.compiled_A)
    as (_ & _ & _ & Hfile & _ & Hemoji).
  - apply ref_keeps_only_requested.
  - vm_compute; reflexivity.
  - vm_compute; reflexivity.
  - eexists. vm_compute; reflexivity.
  - reflexivity.
  - reflexivity.
  - reflexivity.
  - exact (conj Hfile Hemoji).
Defined.

(** ** Claims about the batch driver *)

Lemma process_font_missing (ft : FontTools) (script_dir sn on : string) (st : State) :
  files st !! os_path_join script_dir sn = None ->
  process_font ft script_dir (sn, on) st =
    (Ok tt, with_trace st
              (job_header sn ++
               [EvPrint (OutReading (os_path_join script_dir sn));
                EvPrint (OutNotFound (os_path_join script_dir sn))])).
Proof.
  intros H. rewrite process_font_unfold.
  rewrite run_missing by exact H.
  rewrite !with_trace_app. reflexivity.
Qed.

(** The handler of line 120 takes every [FileNotFoundError] of the job,
    whatever path it carries, and names the source path. *)
Lemma process_font_not_found (ft : FontTools) (script_dir sn on : string) (st : State)
    (p : string) (st1 : State) :
  subset_font_aggressive ft (os_path_join script_dir sn) (os_path_join script_dir on)
    (with_trace st (job_header sn)) = (Raise (FileNotFoundError p), st1) ->
  process_font ft script_dir (sn, on) st =
    (Ok tt, with_trace st1 [EvPrint (OutNotFound (os_path_join script_dir sn))]).
Proof. intros Hrun. rewrite process_font_unfold, Hrun. reflexivity. Qed.

(** The handler of line 122 takes every other exception. *)
Lemma process_font_error (ft : FontTools) (script_dir sn on : string) (st : State)
    (e : PyExc) (st1 : State) :
  (forall p, e ≠ FileNotFoundError p) ->
  subset_font_aggressive ft (os_path_join script_dir sn) (os_path_join script_dir on)
    (with_trace st (job_header sn)) = (Raise e, st1) ->
  process_font ft script_dir (sn, on) st =
    (Ok tt, with_trace st1 [EvPrint (OutError e); EvPrint (OutTraceback e)]).
Proof.
  intros Hne Hrun. rewrite process_font_unfold.
  rewrite Hrun. destruct e; try reflexivity.
  exfalso. exact (Hne _ eq_refl).
Qed.

(** C10: when the source file exists and parses but the font has no ['cmap']
    table, the procedure raises [KeyError] while enumerating the coverage:
    the only effects are the first message and the opening of the font, so
    no subsetter has been configured and no file written.  The driver
    handles it as a generic error, prints the message and the trace, and
    goes on with the next job. *)
Theorem missing_cmap_is_reported (ft : FontTools) (script_dir sn on : string)
    (st : State) (bytes : list Byte.byte) (d : FontData)
    (rest : list (string * string)) :
  files st !! os_path_join script_dir sn = Some bytes ->
  ft_decode ft bytes = inr d ->
  cmap_tables d = None ->
  ∃ st1,
    subset_font_aggressive ft (os_path_join script_dir sn) (os_path_join script_dir on)
      (with_trace st (job_header sn)) = (Raise (KeyError "cmap"), st1) ∧
    new_events (with_trace st (job_header sn)) st1 =
      [EvPrint (OutReading (os_path_join script_dir sn));
       EvOpen (os_path_join script_dir sn) (length (fonts st))] ∧
    files st1 = files st ∧
    process_font ft script_dir (sn, on) st =
      (Ok tt, with_trace st1 [EvPrint (OutError (KeyError "cmap"));
                              EvPrint (OutTraceback (KeyError "cmap"))]) ∧
    for_each ((sn, on) :: rest) (process_font ft script_dir) st =
      for_each rest (process_font ft script_dir)
        (with_trace st1 [EvPrint (OutError (KeyError "cmap"));
                         EvPrint (OutTraceback (KeyError "cmap"))]).
Proof.
  intros Hsrc Hdec Hcmap.
  assert (Hrun := run_no_cmap ft (os_path_join script_dir sn) (os_path_join script_dir on)
                    (with_trace st (job_header sn)) bytes d Hsrc Hdec Hcmap).
  eexists. split; [exact Hrun|].
  split; [apply new_events_with_trace|].
  split; [reflexivity|].
  assert (Hjob : process_font ft script_dir (sn, on) st =
            (Ok tt, with_trace
               {| files := files (with_trace st (job_header sn));
                  fonts := fonts (with_trace st (job_header sn))
                             ++ [{| font_data := d; font_open := true |}];
                  trace := trace (with_trace st (job_header sn))
                             ++ [EvPrint (OutReading (os_path_join script_dir sn));
                                 EvOpen (os_path_join script_dir sn)
                                   (length (fonts (with_trace st (job_header sn))))] |}
               [EvPrint (OutError (KeyError "cmap"));
                EvPrint (OutTraceback (KeyError "cmap"))])).
  { apply process_font_error; [intros p; discriminate|exact Hrun]. }
  split; [exact Hjob|].
  cbn [for_each]. unfold bind at 1. rewrite Hjob. reflexivity.
Qed.

Lemma missing_cmap_is_reported_witness :
  ∃ st1,
    process_font Ref.fonttools "/fonts"
      ("SourceHanSansSC-Bold.otf", "SourceHanSansSC-Bold-subset.otf") Ref.initial =
      (Ok tt, with_trace st1 [EvPrint (OutError (KeyError "cmap"));
                              EvPrint (OutTraceback (KeyError "cmap"))]) ∧
    files st1 = files Ref.initial.
Proof.
  destruct (missing_cmap_is_reported Ref.fonttools "/fonts"
              "SourceHanSansSC-Bold.otf" "SourceHanSansSC-Bold-subset.otf"
              Ref.initial Ref.font_without_cmap Sample.font_B [])
    as (st1 & _ & _ & Hfiles & Hjob & _).
  - vm_compute; reflexivity.
  - vm_compute; reflexivity.
  - vm_compute; reflexivity.
  - exists st1. exact (conj Hjob Hfiles).
Defined.

(** The events of a job whose save could not open the output path: none of
    them is the generic error report or its trace. *)
Lemma no_error_report_events (ft : FontTools) (sn src out : string) (st : State)
    (d : FontData) (e : PyExc) (ev : Event) :
  ev ∈ job_header sn ++ events_to_save ft src out st d ++ [EvPrint (OutNotFound src)] ->
  ev ≠ EvPrint (OutError e) ∧ ev ≠ EvPrint (OutTraceback e).
Proof.
  unfold job_header, events_to_save, events_to_subset. cbn [app]. intros Hin.
  repeat (apply elem_of_cons in Hin as [Hin|Hin];
          [subst ev; split; discriminate|]).
  apply elem_of_nil in Hin. destruct Hin.
Qed.

(** C4 fails on the code for one kind of failure.  The source file of the
    job exists and is a font that is read, subset and serialised, but the
    save of line 82 cannot open the output path and raises
    [FileNotFoundError].  The handler of line 120 takes it: the driver prints
    that the font file was not found, naming the source path, which exists,
    and prints neither the error nor a trace; the claim asks for a report
    with a full trace for every exception other than a missing source.  The
    job is still skipped without raising and nothing is written. *)
Theorem save_not_found_reported_as_missing_source (ft : FontTools) (script_dir : string)
    (job : string * string) (st : State)
    (bytes : list Byte.byte) (d d' : FontData) (bytes' : list Byte.byte) :
  job ∈ fonts_to_process ->
  files st !! os_path_join script_dir job.1 = Some bytes ->
  ft_decode ft bytes = inr d ->
  is_Some (cmap_tables d) ->
  ft_subset ft (the_subsetter ft d) d = inr d' ->
  ft_compile ft d' = inr bytes' ->
  ft_write ft (os_path_join script_dir job.2) bytes' = OpenFails NotFound ->
  ∃ st1,
    subset_font_aggressive ft (os_path_join script_dir job.1)
      (os_path_join script_dir job.2) (with_trace st (job_header job.1))
      = (Raise (FileNotFoundError (os_path_join script_dir job.2)), st1) ∧
    files st1 = files st ∧
    process_font ft script_dir job st =
      (Ok tt, with_trace st1 [EvPrint (OutNotFound (os_path_join script_dir job.1))]) ∧
    new_events st (process_font ft script_dir job st).2 =
      job_header job.1 ++
      events_to_save ft (os_path_join script_dir job.1) (os_path_join script_dir job.2)
        (with_trace st (job_header job.1)) d ++
      [EvPrint (OutNotFound (os_path_join script_dir job.1))] ∧
    (forall e,
       (EvPrint (OutError e) ∉ new_events st (process_font ft script_dir job st).2) ∧
       (EvPrint (OutTraceback e) ∉ new_events st (process_font ft script_dir job st).2)).
Proof.
  intros _ Hsrc Hdec Hcmap Hsub Hcomp Hwr. destruct job as [sn on]. cbn [fst snd] in *.
  assert (Hrun := run_open_fails ft (os_path_join script_dir sn) (os_path_join script_dir on)
                    (with_trace st (job_header sn)) bytes d d' bytes' NotFound
                    Hsrc Hdec Hcmap Hsub Hcomp Hwr).
  cbn [os_exception] in Hrun.
  assert (Hjob := process_font_not_found ft script_dir sn on st _ _ Hrun).
  assert (Hnew : new_events st (process_font ft script_dir (sn, on) st).2 =
                   job_header sn ++
                   events_to_save ft (os_path_join script_dir sn) (os_path_join script_dir on)
                     (with_trace st (job_header sn)) d ++
                   [EvPrint (OutNotFound (os_path_join script_dir sn))]).
  { rewrite Hjob. cbn [snd]. unfold with_trace at 1. cbn [trace files fonts].
    change (trace (with_trace st (job_header sn))) with (trace st ++ job_header sn).
    rewrite <- !app_assoc. apply new_events_with_trace. }
  eexists. split; [exact Hrun|].
  split; [reflexivity|].
  split; [exact Hjob|].
  split; [exact Hnew|].
  intros e. rewrite Hnew. split; intros Hin.
  - destruct (no_error_report_events _ _ _ _ _ _ e _ Hin) as [H _]. exact (H eq_refl).
  - destruct (no_error_report_events _ _ _ _ _ _ e _ Hin) as [_ H]. exact (H eq_refl).
Qed.

Lemma save_not_found_reported_as_missing_source_witness :
  files Ref.initial !! Sample.src1 = Some Ref.font_A_zhong_emoji ∧
  ∃ st1,
    process_font Sample.dangling_output_tools "/fonts"
      ("SourceHanSerifSC.otf", "SourceHanSerifSC-subset.otf") Ref.initial =
      (Ok tt, with_trace st1 [EvPrint (OutNotFound Sample.src1)]) ∧
    files st1 = files Ref.initial.
Proof.
  split; [vm_compute; reflexivity|].
  destruct (save_not_found_reported_as_missing_source Sample.dangling_output_tools "/fonts"
              ("SourceHanSerifSC.otf", "SourceHanSerifSC-subset.otf") Ref.initial
              Ref.font_A_zhong_emoji Sample.font_A Sample.font_A Sample.small_file)
    as (st1 & _ & Hfiles & Hjob & _).
  - apply list_elem_of_here.
  - vm_compute; reflexivity.
  - vm_compute; reflexivity.
  - eexists. vm_compute; reflexivity.
  - reflexivity.
  - reflexivity.
  - reflexivity.
  - exists st1. exact (conj Hjob Hfiles).
Defined.

(** ** Binary64 arithmetic on file sizes *)

Lemma digits2_pos_bounds (p : positive) :
  2 ^ (Z.pos (digits2_pos p) - 1) <= Z.pos p < 2 ^ Z.pos (digits2_pos p).
Proof.
  induction p as [p IH|p IH|]; cbn [digits2_pos].
  - rewrite Pos2Z.inj_succ.
    replace (Z.succ (Z.pos (digits2_pos p)) - 1) with (Z.pos (digits2_pos p)) by lia.
    rewrite Z.pow_succ_r by lia.
    replace (Z.pos (digits2_pos p)) with (Z.succ (Z.pos (digits2_pos p) - 1)) at 1 by lia.
    rewrite Z.pow_succ_r by lia. lia.
  - rewrite Pos2Z.inj_succ.
    replace (Z.succ (Z.pos (digits2_pos p)) - 1) with (Z.pos (digits2_pos p)) by lia.
    rewrite Z.pow_succ_r by lia.
    replace (Z.pos (digits2_pos p)) with (Z.succ (Z.pos (digits2_pos p) - 1)) at 1 by lia.
    rewrite Z.pow_succ_r by lia. lia.
  - cbn. lia.
Qed.

Lemma digits2_pos_le (p : positive) (k : Z) :
  0 <= k -> Z.pos p < 2 ^ k -> Z.pos (digits2_pos p) <= k.
Proof.
  intros Hk Hp. destruct (digits2_pos_bounds p) as [Hlo _].
  destruct (Z.le_gt_cases (Z.pos (digits2_pos p)) k) as [H|H]; [exact H|].
  exfalso. assert (2 ^ k <= 2 ^ (Z.pos (digits2_pos p) - 1)).
  { apply Z.pow_le_mono_r; lia. }
  lia.
Qed.

Lemma digits2_pos_iter_xO (p k : positive) :
  Z.pos (digits2_pos (Pos.iter xO p k)) = Z.pos (digits2_pos p) + Z.pos k.
Proof.
  induction k as [|k IH] using Pos.peano_ind.
  - cbn [Pos.iter digits2_pos]. lia.
  - rewrite Pos.iter_succ. cbn [digits2_pos]. lia.
Qed.

(** Rounding leaves a 53-bit mantissa with an exponent in range as it is. *)
Lemma binary_round_aux_exact (sx : bool) (m : positive) (e : Z) :
  Z.pos (digits2_pos m) = 53 -> -1074 <= e <= 971 ->
  binary_round_aux Float.prec Float.emax sx (Z.pos m) e loc_Exact = S754_finite sx m e.
Proof.
  intros Hd He.
  assert (Hf : fexp Float.prec Float.emax (Z.pos (digits2_pos m) + e) - e = 0).
  { unfold fexp, emin, Float.prec, Float.emax. lia. }
  unfold binary_round_aux, shr_fexp. cbn [Zdigits2 shr_record_of_loc].
  rewrite Hf. cbn [shr loc_of_shr_record shr_m round_nearest_even Zdigits2
                   shr_record_of_loc].
  rewrite Hf. cbn [shr shr_m].
  replace (e <=? Float.emax - Float.prec) with true; [reflexivity|].
  symmetry. apply Z.leb_le. unfold Float.prec, Float.emax. lia.
Qed.

(** A positive integer below [2^53] converts exactly, to a normal number. *)
Lemma of_int_normal (n : Z) :
  0 < n < 2 ^ 53 ->
  exists m e, Float.of_int n = S754_finite false m e /\
              Z.pos (digits2_pos m) = 53 /\ -52 <= e <= 0.
Proof.
  intros Hn. destruct n as [|p|p]; try lia.
  assert (Hd1 : 1 <= Z.pos (digits2_pos p)) by lia.
  assert (Hd2 : Z.pos (digits2_pos p) <= 53) by (apply digits2_pos_le; lia).
  unfold Float.of_int, binary_normalize, binary_round.
  assert (Hf : fexp Float.prec Float.emax (Z.pos (digits2_pos p) + 0)
               = Z.pos (digits2_pos p) - 53).
  { unfold fexp, emin, Float.prec, Float.emax. lia. }
  rewrite Hf. unfold shl_align.
  destruct (Z.pos (digits2_pos p) - 53 - 0) as [|q|q] eqn:Hq; try lia.
  - exists p, (Z.pos (digits2_pos p) - 53).
    replace (Z.pos (digits2_pos p) - 53) with 0 by lia.
    split; [|split; lia].
    apply binary_round_aux_exact; lia.
  - exists (Pos.iter xO p q), (Z.pos (digits2_pos p) - 53).
    assert (Hdq : Z.pos (digits2_pos (Pos.iter xO p q)) = 53).
    { rewrite digits2_pos_iter_xO. lia. }
    split; [|split; [exact Hdq|lia]].
    apply binary_round_aux_exact; [exact Hdq|lia].
Qed.

(** Rounding a 54-bit even mantissa drops its last bit, exactly. *)
Lemma binary_round_aux_even (sx : bool) (m : positive) (e : Z) :
  Z.pos (digits2_pos m) = 53 -> -1074 <= e <= 970 ->
  binary_round_aux Float.prec Float.emax sx (Z.pos m~0) e loc_Exact
    = S754_finite sx m (e + 1).
Proof.
  intros Hd He.
  assert (Hf : fexp Float.prec Float.emax (Z.pos (digits2_pos m~0) + e) - e = 1).
  { cbn [digits2_pos]. unfold fexp, emin, Float.prec, Float.emax. lia. }
  assert (Hf' : fexp Float.prec Float.emax (Z.pos (digits2_pos m) + (e + 1)) - (e + 1) = 0).
  { unfold fexp, emin, Float.prec, Float.emax. lia. }
  unfold binary_round_aux, shr_fexp. cbn [Zdigits2 shr_record_of_loc].
  rewrite Hf. cbn [shr SpecFloat.iter_pos shr_1 orb loc_of_shr_record shr_m round_nearest_even
                   Zdigits2 shr_record_of_loc].
  rewrite Hf'. cbn [shr shr_m].
  replace (e + 1 <=? Float.emax - Float.prec) with true; [reflexivity|].
  symmetry. apply Z.leb_le. unfold Float.prec, Float.emax. lia.
Qed.

Lemma div_eucl_shift (m : positive) :
  Z.div_eucl (Z.shiftl (Z.pos m) 53) 4503599627370496 = (Z.pos m~0, 0).
Proof.
  rewrite Z.shiftl_mul_pow2 by lia.
  replace (Z.pos m * 2 ^ 53) with (Z.pos m~0 * 4503599627370496) by lia.
  assert (H := Z.div_eucl_eq (Z.pos m~0 * 4503599627370496) 4503599627370496).
  assert (Hm := Z.mod_pos_bound (Z.pos m~0 * 4503599627370496) 4503599627370496).
  unfold Z.modulo in Hm.
  destruct (Z.div_eucl (Z.pos m~0 * 4503599627370496) 4503599627370496) as [q r].
  specialize (H ltac:(lia)). specialize (Hm ltac:(lia)).
  assert (q = Z.pos m~0 /\ r = 0) as [-> ->] by nia.
  reflexivity.
Qed.

(** Dividing a normal number by [1024 * 1024] only lowers its exponent. *)
Lemma div_by_mebi (m : positive) (e : Z) :
  Z.pos (digits2_pos m) = 53 -> -1000 <= e <= 900 ->
  Float.div (S754_finite false m e) (Float.of_int (1024 * 1024))
    = S754_finite false m (e - 20).
Proof.
  intros Hd He.
  change (Float.of_int (1024 * 1024)) with (S754_finite false 4503599627370496 (-32)).
  unfold Float.div, SFdiv, SFdiv_core_binary. cbn [Zdigits2 xorb].
  change (Z.pos (digits2_pos 4503599627370496)) with 53.
  rewrite Hd.
  assert (Hmin : Z.min (fexp Float.prec Float.emax (53 + e - (53 + -32))) (e - -32)
                 = e - 21).
  { unfold fexp, emin, Float.prec, Float.emax. lia. }
  rewrite Hmin.
  replace (e - -32 - (e - 21)) with 53 by lia.
  cbv iota. rewrite div_eucl_shift.
  change (new_location 4503599627370496 0) with loc_Exact.
  cbv iota beta.
  rewrite binary_round_aux_even by (try exact Hd; lia).
  f_equal. lia.
Qed.

(** The quotient of two finite numbers is unchanged when both exponents are
    lowered by the same amount. *)
Lemma div_scale_invariant (s1 s2 : bool) (m1 m2 : positive) (e1 e2 k : Z) :
  Float.div (S754_finite s1 m1 (e1 - k)) (S754_finite s2 m2 (e2 - k))
    = Float.div (S754_finite s1 m1 e1) (S754_finite s2 m2 e2).
Proof.
  unfold Float.div, SFdiv, SFdiv_core_binary.
  replace (Zdigits2 (Z.pos m1) + (e1 - k) - (Zdigits2 (Z.pos m2) + (e2 - k)))
    with (Zdigits2 (Z.pos m1) + e1 - (Zdigits2 (Z.pos m2) + e2)) by lia.
  replace (e1 - k - (e2 - k)) with (e1 - e2) by lia.
  reflexivity.
Qed.

(** Scaling both sizes to mebibytes changes neither the quotient nor whether
    the division is defined. *)
Lemma ratio_scaling (s1 s2 : Z) :
  0 < s1 < 2 ^ 53 -> 0 <= s2 < 2 ^ 53 ->
  Float.is_zero (Float.div (Float.of_int s1) (Float.of_int (1024 * 1024))) = false /\
  Float.div (Float.div (Float.of_int s2) (Float.of_int (1024 * 1024)))
            (Float.div (Float.of_int s1) (Float.of_int (1024 * 1024)))
    = Float.div (Float.of_int s2) (Float.of_int s1).
Proof.
  intros H1 H2.
  destruct (of_int_normal s1 H1) as (m1 & e1 & -> & Hd1 & He1).
  rewrite (div_by_mebi m1 e1 Hd1) by lia.
  split; [reflexivity|].
  destruct (Z.eq_dec s2 0) as [->|Hnz].
  - reflexivity.
  - destruct (of_int_normal s2) as (m2 & e2 & -> & Hd2 & He2); [lia|].
    rewrite (div_by_mebi m2 e2 Hd2) by lia.
    apply div_scale_invariant.
Qed.

Lemma reported_ratio_spec (s1 s2 : Z) :
  0 < s1 < 2 ^ 53 -> 0 <= s2 < 2 ^ 53 -> reported_ratio s1 s2 = spec_ratio s1 s2.
Proof.
  intros H1 H2. unfold reported_ratio, spec_ratio. cbv zeta.
  destruct (ratio_scaling s1 s2 H1 H2) as [_ ->]. reflexivity.
Qed.

(** C7: when the procedure completes, with a source file of [S1] bytes and an
    output file of [S2] bytes ([S1 > 0], both below [2^53]), the compression
    ratio it reports is the binary64 value of [(1 - S2/S1) * 100]: the
    division of both sizes by [1024 * 1024] is exact and cancels in the
    quotient, so nothing but the rounding of that formula separates the
    reported value from the exact one. *)
Theorem compression_ratio_reported (ft : FontTools) (src out : string)
    (st st' : State) (b1 b2 : list Byte.byte) :
  subset_font_aggressive ft src out st = (Ok tt, st') ->
  files st' !! src = Some b1 ->
  files st' !! out = Some b2 ->
  0 < Z.of_nat (length b1) < 2 ^ 53 ->
  Z.of_nat (length b2) < 2 ^ 53 ->
  reported_ratio (Z.of_nat (length b1)) (Z.of_nat (length b2))
    = spec_ratio (Z.of_nat (length b1)) (Z.of_nat (length b2)) ∧
  EvPrint (OutRatio (spec_ratio (Z.of_nat (length b1)) (Z.of_nat (length b2))))
    ∈ new_events st st'.
Proof.
  intros Hrun Hb1 Hb2 Hs1 Hs2.
  assert (Heq : reported_ratio (Z.of_nat (length b1)) (Z.of_nat (length b2))
                = spec_ratio (Z.of_nat (length b1)) (Z.of_nat (length b2))).
  { apply reported_ratio_spec; lia. }
  split; [exact Heq|].
  apply run_cases in Hrun. inversion Hrun; subst.
  match goal with H : report_sizes _ _ _ = _, H1 : files st !! src = Some _ |- _ =>
    destruct (report_after_save _ _ _ _ _ _ _ _ _ _ H1 H) as [-> Hr] end.
  cbn [files with_trace saved_state] in Hb1, Hb2.
  rewrite lookup_insert_eq in Hb2. injection Hb2 as Eb2. subst bytes'.
  assert (Hsize : source_size_after_save src out bytes b2 = Z.of_nat (length b1)).
  { unfold source_size_after_save. destruct (decide (src = out)) as [Eso|Hne].
    - rewrite Eso in Hb1. rewrite lookup_insert_eq in Hb1.
      injection Hb1 as E. rewrite E. reflexivity.
    - rewrite lookup_insert_ne in Hb1 by (intros E; apply Hne; symmetry; exact E).
      assert (Some bytes = Some b1) as E by (etransitivity; [symmetry|]; eassumption).
      injection E as E. rewrite E. reflexivity. }
  rewrite Hsize in Hr |- *.
  unfold with_trace, saved_state, new_events. cbn [trace].
  rewrite <- !app_assoc. rewrite drop_app_length.
  apply elem_of_app. right. apply elem_of_app. right.
  unfold report_events. cbv zeta.
  destruct (Float.is_zero _); [discriminate Hr|].
  rewrite Heq. cbn [app].
  do 2 apply list_elem_of_further. apply list_elem_of_here.
Qed.

Lemma compression_ratio_reported_witness :
  reported_ratio 10 4 = spec_ratio 10 4.
Proof.
  assert (Hrun := run_saved Sample.identity_tools Sample.src1 Sample.out1 Ref.initial
                    Ref.font_A_zhong_emoji Sample.font_A Sample.font_A Sample.small_file).
  specialize (Hrun ltac:(vm_compute; reflexivity) ltac:(vm_compute; reflexivity)
                   ltac:(eexists; vm_compute; reflexivity) eq_refl eq_refl eq_refl).
  assert (Hz : Float.is_zero
                 (Float.div
                    (Float.of_int
                       (source_size_after_save Sample.src1 Sample.out1
                          Ref.font_A_zhong_emoji Sample.small_file))
                    (Float.of_int (1024 * 1024))) = false)
    by (vm_compute; reflexivity).
  rewrite Hz in Hrun.
  destruct (compression_ratio_reported Sample.identity_tools Sample.src1 Sample.out1
              Ref.initial _ Ref.font_A_zhong_emoji Sample.small_file Hrun)
    as [Heq _].
  - cbn [files with_trace saved_state]. vm_compute; reflexivity.
  - cbn [files with_trace saved_state]. vm_compute; reflexivity.
  - vm_compute. split; reflexivity.
  - vm_compute. reflexivity.
  - exact Heq.
Defined.

(** * Further properties of the script *)

(** ** What a run does to the disk *)

(** When the font decodes and has a cmap, the run performs the effects up to
    the call of the subsetter, whatever happens afterwards. *)
Lemma run_reaches_subset (ft : FontTools) (src out : string) (st : State)
    (bytes : list Byte.byte) (d : FontData) :
  files st !! src = Some bytes ->
  ft_decode ft bytes = inr d ->
  is_Some (cmap_tables d) ->
  ∃ post, new_events st (subset_font_aggressive ft src out st).2
          = events_to_subset ft src st d ++ post.
Proof.
  intros Hsrc Hdec [tables Hcmap].
  destruct (subset_font_aggressive ft src out st) as [r st'] eqn:Hrun.
  apply run_cases in Hrun. cbn [snd].
  inversion Hrun; subst; try congruence.
  - assert (d0 = d) by congruence. subst d0.
    exists []. rewrite new_events_with_trace. symmetry. apply app_nil_r.
  - assert (d0 = d) by congruence. subst d0.
    eexists. apply new_events_with_trace.
  - assert (d0 = d) by congruence. subst d0.
    eexists. apply new_events_with_trace.
  - assert (d0 = d) by congruence. subst d0.
    eexists. apply new_events_with_trace.
  - assert (d0 = d) by congruence. subst d0.
    match goal with H : report_sizes _ _ _ = _, H1 : files st !! src = Some _ |- _ =>
      destruct (report_after_save _ _ _ _ _ _ _ _ _ _ H1 H) as [-> _] end.
    eexists. unfold with_trace, saved_state, events_to_save, new_events. cbn [trace].
    rewrite <- !app_assoc. rewrite drop_app_length. reflexivity.
Qed.

(** X1: a run of [subset_font_aggressive] writes to no path but the output
    path: every other file, the source included when the two paths differ,
    is left exactly as it was, whatever the outcome. *)
Theorem only_output_path_written (ft : FontTools) (src out : string) (st : State)
    (r : Result unit) (st' : State) (p : string) :
  subset_font_aggressive ft src out st = (r, st') ->
  p ≠ out ->
  files st' !! p = files st !! p.
Proof.
  intros Hrun Hp. apply run_cases in Hrun.
  inversion Hrun; subst; cbn [files with_trace]; try reflexivity.
  { apply lookup_insert_ne. intros E. apply Hp. symmetry. exact E. }
  match goal with H : report_sizes _ _ _ = _, H1 : files st !! src = Some _ |- _ =>
    destruct (report_after_save _ _ _ _ _ _ _ _ _ _ H1 H) as [-> _] end.
  cbn [files with_trace saved_state].
  apply lookup_insert_ne. intros E. apply Hp. symmetry. exact E.
Qed.

Lemma only_output_path_written_witness :
  files (subset_font_aggressive Sample.identity_tools Sample.src1 Sample.out1
           Ref.initial).2 !! Sample.src1
  = files Ref.initial !! Sample.src1.
Proof.
  apply (only_output_path_written Sample.identity_tools Sample.src1 Sample.out1
           Ref.initial
           (subset_font_aggressive Sample.identity_tools Sample.src1 Sample.out1
              Ref.initial).1).
  - apply surjective_pairing.
  - vm_compute. discriminate.
Defined.

(** X2: a run that fails (any exception but the division by zero of the
    size report) leaves the disk exactly as it found it, with one exception:
    when the write of the save stops with an operating-system error, the
    output path holds the bytes written so far, a truncated font, and stays
    so, since nothing is cleaned up.  In particular a failure that is not an
    operating-system error, and a save that cannot open the output path,
    create or overwrite nothing. *)
Theorem failure_leaves_disk_or_truncated_output (ft : FontTools) (src out : string)
    (st : State) (e : PyExc) (st' : State) :
  subset_font_aggressive ft src out st = (Raise e, st') ->
  e ≠ ZeroDivisionError ->
  (files st' = files st ∨
   ∃ bytes d d' bytes' msg written,
     files st !! src = Some bytes ∧
     ft_decode ft bytes = inr d ∧
     ft_subset ft (the_subsetter ft d) d = inr d' ∧
     ft_compile ft d' = inr bytes' ∧
     ft_write ft out bytes' = WriteFails msg written ∧
     e = OSError msg ∧
     files st' = <[out := take written bytes']> (files st)) ∧
  ((forall msg, e ≠ OSError msg) -> files st' = files st).
Proof.
  intros Hrun He. apply run_cases in Hrun.
  inversion Hrun; subst; cbn [files with_trace];
    try (split; [left; reflexivity|intros _; reflexivity]).
  - split.
    + right. exists bytes, d, d', bytes', msg, written.
      repeat (split; [assumption || reflexivity|]). reflexivity.
    + intros Hos. exfalso. exact (Hos msg eq_refl).
  - match goal with H : report_sizes _ _ _ = _, H1 : files st !! src = Some _ |- _ =>
      destruct (report_after_save _ _ _ _ _ _ _ _ _ _ H1 H) as [_ Hr] end.
    destruct (Float.is_zero _); [|discriminate Hr].
    exfalso. apply He. injection Hr as E. exact E.
Qed.

Lemma failure_leaves_disk_or_truncated_output_witness :
  ∃ st',
    subset_font_aggressive Sample.full_disk_tools Sample.src1 Sample.out1 Ref.initial
      = (Raise (OSError "No space left on device"), st') ∧
    files st' !! Sample.out1 = Some [Byte.x01; Byte.x00] ∧
    (files st' = files Ref.initial ∨
     ∃ bytes d d' bytes' msg written,
       files Ref.initial !! Sample.src1 = Some bytes ∧
       ft_decode Sample.full_disk_tools bytes = inr d ∧
       ft_subset Sample.full_disk_tools (the_subsetter Sample.full_disk_tools d) d
         = inr d' ∧
       ft_compile Sample.full_disk_tools d' = inr bytes' ∧
       ft_write Sample.full_disk_tools Sample.out1 bytes' = WriteFails msg written ∧
       OSError "No space left on device" = OSError msg ∧
       files st' = <[Sample.out1 := take written bytes']> (files Ref.initial)).
Proof.
  assert (Hrun := run_write_fails Sample.full_disk_tools Sample.src1 Sample.out1 Ref.initial
                    Ref.font_A_zhong_emoji Sample.font_A Sample.font_A Sample.small_file
                    "No space left on device" 2%nat).
  specialize (Hrun ltac:(vm_compute; reflexivity) ltac:(vm_compute; reflexivity)
                   ltac:(eexists; vm_compute; reflexivity) eq_refl eq_refl eq_refl).
  eexists. split; [exact Hrun|].
  split; [cbn [files]; apply lookup_insert_eq|].
  refine (proj1 (failure_leaves_disk_or_truncated_output Sample.full_disk_tools
                   Sample.src1 Sample.out1 Ref.initial _ _ Hrun _)).
  discriminate.
Defined.

(** ** The character statistics *)

Lemma keep_subset_source (source_chars : gset Z) :
  chars_to_keep source_chars ⊆ source_chars.
Proof. intros c Hc. apply elem_of_chars_to_keep in Hc. exact (proj2 Hc). Qed.

Lemma keep_subset_common (source_chars : gset Z) :
  chars_to_keep source_chars ⊆ get_common_chinese_chars.
Proof. intros c Hc. apply elem_of_chars_to_keep in Hc. exact (proj1 Hc). Qed.

Lemma removed_is_difference (source_chars : gset Z) :
  source_chars ∖ chars_to_keep source_chars = source_chars ∖ get_common_chinese_chars.
Proof.
  apply set_eq. intros c. split; intros Hc.
  - apply elem_of_difference in Hc as [Hs Hn]. apply elem_of_difference.
    split; [exact Hs|]. intros Hcommon. apply Hn.
    apply elem_of_chars_to_keep. exact (conj Hcommon Hs).
  - apply elem_of_difference in Hc as [Hs Hn]. apply elem_of_difference.
    split; [exact Hs|]. intros Hk. apply Hn.
    apply elem_of_chars_to_keep in Hk. exact (proj1 Hk).
Qed.

(** X3: the four counts a run prints are consistent.  For a source font with
    coverage [S] they are, in this order, [|S|], 21600, the number [k] of
    characters kept and [|S| - k]; [k] is at most [|S|] and at most 21600,
    and the last count is the number of source characters outside the common
    set, never negative. *)
Theorem printed_counts_consistent (ft : FontTools) (src out : string) (st : State)
    (bytes : list Byte.byte) (d : FontData) :
  files st !! src = Some bytes ->
  ft_decode ft bytes = inr d ->
  is_Some (cmap_tables d) ->
  ∃ k pre post,
    new_events st (subset_font_aggressive ft src out st).2 =
      pre ++ [EvPrint (OutSourceCount (len (font_chars d)));
              EvPrint (OutCommonCount 21600);
              EvPrint (OutKeepCount k);
              EvPrint (OutRemoveCount (len (font_chars d) - k))] ++ post ∧
    k = len (chars_to_keep (font_chars d)) ∧
    0 ≤ k ≤ len (font_chars d) ∧
    k ≤ 21600 ∧
    len (font_chars d) - k = len (font_chars d ∖ get_common_chinese_chars).
Proof.
  intros Hsrc Hdec Hcmap.
  destruct (run_reaches_subset ft src out st bytes d Hsrc Hdec Hcmap) as [post Hev].
  exists (len (chars_to_keep (font_chars d))),
         [EvPrint (OutReading src); EvOpen src (length (fonts st))],
         ([EvSubsetter (aggressive_options ft);
           EvPopulate (chars_to_keep (font_chars d));
           EvSubset (the_subsetter ft d) (length (fonts st))] ++ post).
  split.
  { rewrite Hev. unfold events_to_subset. rewrite size_common. reflexivity. }
  split; [reflexivity|].
  assert (H1 := subseteq_size _ _ (keep_subset_source (font_chars d))).
  assert (H2 := subseteq_size _ _ (keep_subset_common (font_chars d))).
  assert (H3 := size_difference _ _ (keep_subset_source (font_chars d))).
  rewrite removed_is_difference in H3.
  assert (H4 := size_common).
  unfold len in *. lia.
Qed.

Lemma printed_counts_consistent_witness :
  ∃ k, 0 ≤ k ≤ len (font_chars Sample.font_A) ∧ k ≤ 21600.
Proof.
  destruct (printed_counts_consistent Ref.fonttools Sample.src1 Sample.out1 Ref.initial
              Ref.font_A_zhong_emoji Sample.font_A)
    as (k & _ & _ & _ & _ & Hk & Hc & _).
  - vm_compute; reflexivity.
  - vm_compute; reflexivity.
  - eexists. vm_compute; reflexivity.
  - exists k. exact (conj Hk Hc).
Defined.

Lemma populate_event (ft : FontTools) (src out : string) (st : State)
    (bytes : list Byte.byte) (d : FontData) :
  files st !! src = Some bytes ->
  ft_decode ft bytes = inr d ->
  is_Some (cmap_tables d) ->
  EvPopulate (chars_to_keep (font_chars d))
    ∈ new_events st (subset_font_aggressive ft src out st).2 ∧
  EvPrint (OutKeepCount (len (chars_to_keep (font_chars d))))
    ∈ new_events st (subset_font_aggressive ft src out st).2 ∧
  EvPrint (OutRemoveCount (len (font_chars d) - len (chars_to_keep (font_chars d))))
    ∈ new_events st (subset_font_aggressive ft src out st).2.
Proof.
  intros Hsrc Hdec Hcmap.
  destruct (run_reaches_subset ft src out st bytes d Hsrc Hdec Hcmap) as [post ->].
  unfold events_to_subset.
  split; [|split]; apply elem_of_app; left.
  - do 7 apply list_elem_of_further. apply list_elem_of_here.
  - do 4 apply list_elem_of_further. apply list_elem_of_here.
  - do 5 apply list_elem_of_further. apply list_elem_of_here.
Qed.

(** X4: an empty keep set is not treated specially.  When the source font has
    no character in common with the common set, the run reports 0 characters
    kept and all of them removed, still asks the subsetter for the empty set
    of code points and, if the library and the write go along, writes the
    output file. *)
Theorem empty_keep_set_is_processed (ft : FontTools) (src out : string) (st : State)
    (bytes : list Byte.byte) (d d' : FontData) (bytes' : list Byte.byte) :
  files st !! src = Some bytes ->
  ft_decode ft bytes = inr d ->
  is_Some (cmap_tables d) ->
  font_chars d ## get_common_chinese_chars ->
  ft_subset ft {| options := aggressive_options ft; unicodes_requested := ∅ |} d
    = inr d' ->
  ft_compile ft d' = inr bytes' ->
  ft_write ft out bytes' = Written ->
  EvPrint (OutKeepCount 0) ∈ new_events st (subset_font_aggressive ft src out st).2 ∧
  EvPrint (OutRemoveCount (len (font_chars d)))
    ∈ new_events st (subset_font_aggressive ft src out st).2 ∧
  EvPopulate ∅ ∈ new_events st (subset_font_aggressive ft src out st).2 ∧
  files (subset_font_aggressive ft src out st).2 !! out = Some bytes'.
Proof.
  intros Hsrc Hdec Hcmap Hdisj Hsub Hcomp Hwr.
  assert (Hkeep : chars_to_keep (font_chars d) = ∅).
  { apply set_eq. intros c. split; intros Hc.
    - apply elem_of_chars_to_keep in Hc as [Hc1 Hc2].
      exfalso. exact (Hdisj c Hc2 Hc1).
    - apply elem_of_empty in Hc. destruct Hc. }
  destruct (populate_event ft src out st bytes d Hsrc Hdec Hcmap) as (Hp & Hk & Hr).
  rewrite Hkeep in Hp, Hk, Hr.
  replace (len (∅ : gset Z)) with 0 in Hk, Hr by reflexivity.
  rewrite Z.sub_0_r in Hr.
  split; [exact Hk|]. split; [exact Hr|]. split; [exact Hp|].
  assert (Hsub' : ft_subset ft (the_subsetter ft d) d = inr d').
  { unfold the_subsetter. rewrite Hkeep. exact Hsub. }
  rewrite (run_saved ft src out st bytes d d' bytes' Hsrc Hdec Hcmap Hsub' Hcomp Hwr).
  cbn [snd with_trace saved_state files]. apply lookup_insert_eq.
Qed.

Lemma empty_keep_set_is_processed_witness :
  EvPopulate ∅
    ∈ new_events More.disk_emoji
        (subset_font_aggressive Sample.identity_tools Sample.src1 Sample.out1
           More.disk_emoji).2.
Proof.
  destruct (empty_keep_set_is_processed Sample.identity_tools Sample.src1 Sample.out1
              More.disk_emoji More.font_emoji_only More.data_emoji_only
              More.data_emoji_only Sample.small_file)
    as (_ & _ & H & _).
  - vm_compute; reflexivity.
  - vm_compute; reflexivity.
  - eexists. vm_compute; reflexivity.
  - intros c Hc Hcommon.
    replace (font_chars More.data_emoji_only) with ({[ 0x1F600 ]} : gset Z) in Hc
      by (vm_compute; reflexivity).
    apply elem_of_singleton in Hc. apply common_bounds in Hcommon. lia.
  - reflexivity.
  - reflexivity.
  - reflexivity.
  - exact H.
Defined.

(** X5: a font that declares only common characters loses none: the keep set
    is its whole coverage and the run reports 0 characters removed.  This is
    the case of any font the procedure has produced before, when the
    subsetter keeps only what was requested. *)
Theorem common_only_font_keeps_all (ft : FontTools) (src out : string) (st : State)
    (bytes : list Byte.byte) (d : FontData) :
  files st !! src = Some bytes ->
  ft_decode ft bytes = inr d ->
  is_Some (cmap_tables d) ->
  font_chars d ⊆ get_common_chinese_chars ->
  chars_to_keep (font_chars d) = font_chars d ∧
  EvPopulate (font_chars d) ∈ new_events st (subset_font_aggressive ft src out st).2 ∧
  EvPrint (OutKeepCount (len (font_chars d)))
    ∈ new_events st (subset_font_aggressive ft src out st).2 ∧
  EvPrint (OutRemoveCount 0) ∈ new_events st (subset_font_aggressive ft src out st).2.
Proof.
  intros Hsrc Hdec Hcmap Hsub.
  assert (Hkeep : chars_to_keep (font_chars d) = font_chars d).
  { apply set_eq. intros c. split; intros Hc.
    - apply elem_of_chars_to_keep in Hc. exact (proj2 Hc).
    - apply elem_of_chars_to_keep. exact (conj (Hsub c Hc) Hc). }
  destruct (populate_event ft src out st bytes d Hsrc Hdec Hcmap) as (Hp & Hk & Hr).
  rewrite Hkeep in Hp, Hk, Hr. rewrite Z.sub_diag in Hr.
  exact (conj Hkeep (conj Hp (conj Hk Hr))).
Qed.

Lemma common_only_font_keeps_all_witness :
  chars_to_keep (font_chars More.data_common_only) = font_chars More.data_common_only.
Proof.
  destruct (common_only_font_keeps_all Sample.identity_tools Sample.src1 Sample.out1
              More.disk_common More.font_common_only More.data_common_only)
    as (H & _).
  - vm_compute; reflexivity.
  - vm_compute; reflexivity.
  - eexists. vm_compute; reflexivity.
  - intros c Hc.
    replace (font_chars More.data_common_only) with ({[ 0x41; 0x4E2D ]} : gset Z) in Hc
      by (vm_compute; reflexivity).
    apply elem_of_union in Hc as [Hc|Hc]; apply elem_of_singleton in Hc;
      apply elem_of_common; lia.
  - exact H.
Defined.

(** X6: the coverage read from the cmap (lines 55-57) is the union of the
    subtables' key sets: a code point is in it exactly when some subtable
    maps it, and the set is the union of the domains of the subtables, so
    empty when there is no subtable.  Hence it does not depend on the order
    of the subtables, and a subtable listed twice, or code points shared
    between subtables, count once. *)
Theorem coverage_is_union_of_subtables (tables1 tables2 : list CmapSubtable) :
  (forall c, c ∈ source_chars_of tables1 ↔ ∃ t, t ∈ tables1 ∧ is_Some (cmap t !! c)) ∧
  source_chars_of tables1 = ⋃ ((fun t => dom (cmap t) : gset Z) <$> tables1) ∧
  source_chars_of [] = ∅ ∧
  (forall t, source_chars_of [t] = dom (cmap t)) ∧
  source_chars_of (tables1 ++ tables2)
    = source_chars_of tables1 ∪ source_chars_of tables2 ∧
  source_chars_of (tables2 ++ tables1) = source_chars_of (tables1 ++ tables2) ∧
  source_chars_of (tables1 ++ tables1) = source_chars_of tables1.
Proof.
  split; [intros c; apply elem_of_source_chars_of|].
  split.
  { apply set_eq. intros c. rewrite elem_of_source_chars_of, elem_of_union_list. split.
    - intros (t & Ht & H). exists (dom (cmap t)). split.
      + apply list_elem_of_fmap. exists t. exact (conj eq_refl Ht).
      + apply elem_of_dom. exact H.
    - intros (X & HX & Hc). apply list_elem_of_fmap in HX as (t & -> & Ht).
      exists t. split; [exact Ht|]. apply elem_of_dom. exact Hc. }
  split; [reflexivity|].
  split.
  { intros t. apply set_eq. intros c. rewrite elem_of_source_chars_of, elem_of_dom. split.
    - intros (t' & Ht & H). apply list_elem_of_singleton in Ht. subst t'. exact H.
    - intros H. exists t. split; [apply list_elem_of_here|exact H]. }
  assert (Happ : forall l1 l2,
            source_chars_of (l1 ++ l2) = source_chars_of l1 ∪ source_chars_of l2).
  { intros l1 l2. apply set_eq. intros c.
    rewrite elem_of_union, !elem_of_source_chars_of. split.
    - intros (t & Ht & H). apply elem_of_app in Ht as [Ht|Ht].
      + left. exists t. exact (conj Ht H).
      + right. exists t. exact (conj Ht H).
    - intros [(t & Ht & H)|(t & Ht & H)]; exists t; (split; [|exact H]);
        apply elem_of_app; [left|right]; exact Ht. }
  split; [apply Happ|]. split.
  - rewrite !Happ. apply (comm_L (∪)).
  - rewrite Happ. apply (idemp_L (∪)).
Qed.

(** ** What the batch does to the disk *)

Lemma run_files_other (ft : FontTools) (src out : string) (st : State) (p : string) :
  p ≠ out ->
  files (subset_font_aggressive ft src out st).2 !! p = files st !! p.
Proof.
  intros Hp. destruct (subset_font_aggressive ft src out st) as [r st'] eqn:Hrun.
  apply run_cases in Hrun. cbn [snd].
  inversion Hrun; subst; cbn [files with_trace]; try reflexivity.
  { apply lookup_insert_ne. intros E. apply Hp. symmetry. exact E. }
  match goal with H : report_sizes _ _ _ = _, H1 : files st !! src = Some _ |- _ =>
    destruct (report_after_save _ _ _ _ _ _ _ _ _ _ H1 H) as [-> _] end.
  cbn [files with_trace saved_state].
  apply lookup_insert_ne. intros E. apply Hp. symmetry. exact E.
Qed.

Lemma process_font_files_other (ft : FontTools) (script_dir sn on : string)
    (st : State) (p : string) :
  p ≠ os_path_join script_dir on ->
  files (process_font ft script_dir (sn, on) st).2 !! p = files st !! p.
Proof.
  intros Hp. rewrite process_font_unfold.
  assert (H := run_files_other ft (os_path_join script_dir sn)
                 (os_path_join script_dir on) (with_trace st (job_header sn)) p Hp).
  destruct (subset_font_aggressive _ _ _ _) as [[[]|e] st1]; cbn [snd] in H |- *.
  - exact H.
  - destruct e; exact H.
Qed.

Lemma string_app_assoc (a b c : string) : (a +:+ b) +:+ c = a +:+ b +:+ c.
Proof.
  induction a as [|x a IH]; [reflexivity|].
  change (String x ((a +:+ b) +:+ c) = String x (a +:+ b +:+ c)).
  rewrite IH. reflexivity.
Qed.

(** A file name that does not start with a slash is appended to a prefix
    that depends on the directory only. *)
Lemma os_path_join_relative (a : string) :
  ∃ prefix, forall c b, c ≠ "/"%char ->
    os_path_join a (String c b) = prefix +:+ String c b.
Proof.
  exists (if bool_decide (a = "") || ends_with_slash a then a else a +:+ "/").
  intros c b Hc. unfold os_path_join.
  assert (Hm : forall X (x y : X),
            match String c b with String "/" _ => x | _ => y end = y).
  { intros X x y.
    destruct c as [[] [] [] [] [] [] [] []]; try reflexivity.
    exfalso. apply Hc. reflexivity. }
  rewrite Hm.
  destruct (bool_decide (a = "") || ends_with_slash a); [reflexivity|].
  symmetry. apply string_app_assoc.
Qed.

(** X7: whatever happens to the two jobs, the batch leaves every file but
    the two output paths as it was; in particular neither source font is
    modified, in whatever directory the script lies. *)
Theorem batch_touches_only_outputs (ft : FontTools) (script_dir : string) (st : State)
    (p : string) :
  p ≠ os_path_join script_dir "SourceHanSerifSC-subset.otf" ->
  p ≠ os_path_join script_dir "SourceHanSansSC-Bold-subset.otf" ->
  files (main ft script_dir st).2 !! p = files st !! p ∧
  files (main ft script_dir st).2 !! os_path_join script_dir "SourceHanSerifSC.otf"
    = files st !! os_path_join script_dir "SourceHanSerifSC.otf" ∧
  files (main ft script_dir st).2 !! os_path_join script_dir "SourceHanSansSC-Bold.otf"
    = files st !! os_path_join script_dir "SourceHanSansSC-Bold.otf".
Proof.
  assert (Hmain : forall q,
            q ≠ os_path_join script_dir "SourceHanSerifSC-subset.otf" ->
            q ≠ os_path_join script_dir "SourceHanSansSC-Bold-subset.otf" ->
            files (main ft script_dir st).2 !! q = files st !! q).
  { intros q Hq1 Hq2.
    destruct (process_font_total ft script_dir
                ("SourceHanSerifSC.otf", "SourceHanSerifSC-subset.otf") st) as [st1 H1].
    destruct (process_font_total ft script_dir
                ("SourceHanSansSC-Bold.otf", "SourceHanSansSC-Bold-subset.otf") st1)
      as [st2 H2].
    rewrite (main_unfold ft script_dir st st1 st2 H1 H2).
    cbn [snd files with_trace].
    assert (E2 := process_font_files_other ft script_dir "SourceHanSansSC-Bold.otf"
                    "SourceHanSansSC-Bold-subset.otf" st1 q Hq2).
    rewrite H2 in E2. cbn [snd] in E2. rewrite E2.
    assert (E1 := process_font_files_other ft script_dir "SourceHanSerifSC.otf"
                    "SourceHanSerifSC-subset.otf" st q Hq1).
    rewrite H1 in E1. cbn [snd] in E1. exact E1. }
  destruct (os_path_join_relative script_dir) as [prefix Hjoin].
  assert (HS : "S"%char ≠ "/"%char) by discriminate.
  intros Hp1 Hp2. split; [exact (Hmain p Hp1 Hp2)|].
  split; apply Hmain; rewrite !Hjoin by exact HS; intros E;
    apply (inj (String.append prefix)) in E; discriminate E.
Qed.

Lemma batch_touches_only_outputs_witness :
  files (main Ref.fonttools "/fonts" Ref.initial).2 !! Sample.src2
    = files Ref.initial !! Sample.src2.
Proof.
  destruct (batch_touches_only_outputs Ref.fonttools "/fonts" Ref.initial Sample.src2)
    as (H & _).
  - vm_compute. discriminate.
  - vm_compute. discriminate.
  - exact H.
Defined.

(** ** The size report in binary64 *)

Lemma iter_xO_value (p k : positive) :
  Z.pos (Pos.iter xO p k) = Z.pos p * 2 ^ Z.pos k.
Proof.
  induction k as [|k IH] using Pos.peano_ind.
  - cbn [Pos.iter]. lia.
  - rewrite Pos.iter_succ, Pos2Z.inj_succ, Z.pow_succ_r by lia.
    rewrite Pos2Z.inj_xO, IH. lia.
Qed.

(** The conversion of a positive integer below [2^53] loses nothing. *)
Lemma of_int_exact (n : Z) :
  0 < n < 2 ^ 53 ->
  exists m e, Float.of_int n = S754_finite false m e /\
              Z.pos (digits2_pos m) = 53 /\ -52 <= e <= 0 /\
              Z.pos m = n * 2 ^ (- e).
Proof.
  intros Hn. destruct n as [|p|p]; try lia.
  assert (Hd1 : 1 <= Z.pos (digits2_pos p)) by lia.
  assert (Hd2 : Z.pos (digits2_pos p) <= 53) by (apply digits2_pos_le; lia).
  unfold Float.of_int, binary_normalize, binary_round.
  assert (Hf : fexp Float.prec Float.emax (Z.pos (digits2_pos p) + 0)
               = Z.pos (digits2_pos p) - 53).
  { unfold fexp, emin, Float.prec, Float.emax. lia. }
  rewrite Hf. unfold shl_align.
  destruct (Z.pos (digits2_pos p) - 53 - 0) as [|q|q] eqn:Hq; try lia.
  - exists p, (Z.pos (digits2_pos p) - 53).
    replace (Z.pos (digits2_pos p) - 53) with 0 by lia.
    split; [|split; [lia|split; [lia|]]].
    + apply binary_round_aux_exact; lia.
    + cbn. lia.
  - exists (Pos.iter xO p q), (Z.pos (digits2_pos p) - 53).
    assert (Hdq : Z.pos (digits2_pos (Pos.iter xO p q)) = 53).
    { rewrite digits2_pos_iter_xO. lia. }
    split; [|split; [exact Hdq|split; [lia|]]].
    + apply binary_round_aux_exact; [exact Hdq|lia].
    + rewrite iter_xO_value. f_equal. f_equal. lia.
Qed.

(** The comparison of line 92 is the comparison of the output size in bytes
    with [20 * 1024 * 1024]. *)
Lemma mebibytes_leb_20 (s : Z) :
  0 <= s < 2 ^ 53 ->
  Float.leb (mebibytes s) (Float.of_int 20) = (s <=? cdn_limit_bytes).
Proof.
  intros Hs. unfold mebibytes, cdn_limit_bytes.
  destruct (Z.eq_dec s 0) as [->|Hnz]; [reflexivity|].
  destruct (of_int_exact s) as (m & e & -> & Hd & He & Hv); [lia|].
  rewrite (div_by_mebi m e Hd) by lia.
  change (Float.of_int 20) with (S754_finite false 5629499534213120 (-48)).
  unfold Float.leb, SFleb, SFcompare.
  destruct (digits2_pos_bounds m) as [Hlo Hhi]. rewrite Hd in Hlo, Hhi.
  change (2 ^ (53 - 1)) with 4503599627370496 in Hlo.
  change (2 ^ 53) with 9007199254740992 in Hhi.
  assert (Hpow : 0 < 2 ^ (- e)) by (apply Z.pow_pos_nonneg; lia).
  destruct (Z.compare_spec (e - 20) (-48)) as [Heq|Hlt|Hgt].
  - assert (e = -28) by lia. subst e. change (2 ^ (- -28)) with 268435456 in Hv.
    rewrite Pos.compare_cont_spec. cbn [Pos.switch_Eq].
    rewrite Pos2Z.inj_compare.
    destruct (Z.compare_spec (Z.pos m) (Z.pos 5629499534213120));
      symmetry; [apply Z.leb_le|apply Z.leb_le|apply Z.leb_gt]; lia.
  - assert (H29 : 2 ^ 29 <= 2 ^ (- e)) by (apply Z.pow_le_mono_r; lia).
    change (2 ^ 29) with 536870912 in H29.
    symmetry. apply Z.leb_le. nia.
  - assert (H27 : 2 ^ (- e) <= 2 ^ 27) by (apply Z.pow_le_mono_r; lia).
    change (2 ^ 27) with 134217728 in H27.
    symmetry. apply Z.leb_gt. nia.
Qed.

(** A run that returns normally went through the save and the whole report. *)
Lemma ok_run_inv (ft : FontTools) (src out : string) (st st' : State) :
  subset_font_aggressive ft src out st = (Ok tt, st') ->
  ∃ bytes d d' bytes',
    files st !! src = Some bytes ∧
    st' = with_trace (saved_state ft src out st d d' bytes')
            (report_events (source_size_after_save src out bytes bytes')
                           (Z.of_nat (length bytes'))) ∧
    Float.is_zero (mebibytes (source_size_after_save src out bytes bytes')) = false.
Proof.
  intros Hrun. apply run_cases in Hrun. inversion Hrun; subst.
  match goal with H : report_sizes _ _ _ = _, H1 : files st !! src = Some _ |- _ =>
    destruct (report_after_save _ _ _ _ _ _ _ _ _ _ H1 H) as [-> Hr] end.
  exists bytes, d, d', bytes'. split; [assumption|]. split; [reflexivity|].
  unfold mebibytes. destruct (Float.is_zero _); [discriminate Hr|reflexivity].
Qed.

(** X8: the last line of a completed run is the success message exactly when
    the output file has at most [20 * 1024 * 1024 = 20971520] bytes;
    otherwise the run warns that the file is over the limit and ends on the
    advice to reduce the character set further. *)
Theorem size_limit_message (ft : FontTools) (src out : string) (st st' : State)
    (b2 : list Byte.byte) :
  subset_font_aggressive ft src out st = (Ok tt, st') ->
  files st' !! out = Some b2 ->
  Z.of_nat (length b2) < 2 ^ 53 ->
  last (new_events st st') =
    Some (if Z.of_nat (length b2) <=? cdn_limit_bytes
          then EvPrint (OutWithinLimit (mebibytes (Z.of_nat (length b2))))
          else EvPrint OutAdvice) ∧
  (cdn_limit_bytes < Z.of_nat (length b2) ->
   EvPrint (OutOverLimit (mebibytes (Z.of_nat (length b2)))) ∈ new_events st st').
Proof.
  intros Hrun Hb2 Hs2.
  destruct (ok_run_inv ft src out st st' Hrun) as (bytes & d & d' & bytes' & _ & -> & Hz).
  cbn [files with_trace saved_state] in Hb2.
  rewrite lookup_insert_eq in Hb2. injection Hb2 as E. subst bytes'.
  unfold with_trace, saved_state, new_events. cbn [trace].
  rewrite <- !app_assoc. rewrite drop_app_length.
  unfold report_events. cbv zeta. fold (mebibytes (Z.of_nat (length b2))).
  fold (mebibytes (source_size_after_save src out bytes b2)).
  rewrite Hz. rewrite mebibytes_leb_20 by lia.
  destruct (Z.leb_spec (Z.of_nat (length b2)) cdn_limit_bytes) as [Hle|Hgt].
  - split; [|lia].
    rewrite !last_app. reflexivity.
  - split.
    + rewrite !last_app. reflexivity.
    + intros _. apply elem_of_app. right. apply elem_of_app. right.
      cbn [app]. do 3 apply list_elem_of_further. apply list_elem_of_here.
Qed.

Lemma size_limit_message_witness :
  last (new_events Ref.initial
          (with_trace
             (saved_state Sample.identity_tools Sample.src1 Sample.out1 Ref.initial
                Sample.font_A Sample.font_A Sample.small_file)
             (report_events
                (source_size_after_save Sample.src1 Sample.out1
                   Ref.font_A_zhong_emoji Sample.small_file)
                (Z.of_nat (length Sample.small_file)))))
  = Some (EvPrint (OutWithinLimit (mebibytes 4))).
Proof.
  assert (Hrun := run_saved Sample.identity_tools Sample.src1 Sample.out1 Ref.initial
                    Ref.font_A_zhong_emoji Sample.font_A Sample.font_A Sample.small_file).
  specialize (Hrun ltac:(vm_compute; reflexivity) ltac:(vm_compute; reflexivity)
                   ltac:(eexists; vm_compute; reflexivity) eq_refl eq_refl eq_refl).
  assert (Hz : Float.is_zero
                 (Float.div
                    (Float.of_int
                       (source_size_after_save Sample.src1 Sample.out1
                          Ref.font_A_zhong_emoji Sample.small_file))
                    (Float.of_int (1024 * 1024))) = false)
    by (vm_compute; reflexivity).
  rewrite Hz in Hrun.
  destruct (size_limit_message Sample.identity_tools Sample.src1 Sample.out1
              Ref.initial _ Sample.small_file Hrun) as [H _].
  - cbn [files with_trace saved_state]. apply lookup_insert_eq.
  - vm_compute. reflexivity.
  - exact H.
Defined.

Lemma div_eucl_shift_self (m : positive) :
  Z.div_eucl (Z.shiftl (Z.pos m) 53) (Z.pos m) = (9007199254740992, 0).
Proof.
  rewrite Z.shiftl_mul_pow2 by lia.
  change (2 ^ 53) with 9007199254740992.
  rewrite Z.mul_comm.
  assert (Hq : 9007199254740992 * Z.pos m / Z.pos m = 9007199254740992)
    by (apply Z.div_mul; lia).
  assert (Hr : (9007199254740992 * Z.pos m) mod Z.pos m = 0)
    by (apply Z.mod_mul; lia).
  unfold Z.div in Hq. unfold Z.modulo in Hr.
  destruct (Z.div_eucl (9007199254740992 * Z.pos m) (Z.pos m)) as [q r].
  rewrite Hq, Hr. reflexivity.
Qed.

(** A normal number divided by itself is exactly one. *)
Lemma div_self (m : positive) (e : Z) :
  Z.pos (digits2_pos m) = 53 ->
  Float.div (S754_finite false m e) (S754_finite false m e) = Float.of_int 1.
Proof.
  intros Hd.
  unfold Float.div, SFdiv, SFdiv_core_binary. cbn [Zdigits2 xorb].
  rewrite Hd.
  replace (53 + e - (53 + e)) with 0 by lia.
  replace (e - e) with 0 by lia.
  change (Z.min (fexp Float.prec Float.emax 0) 0) with (-53).
  change (0 - -53) with 53.
  cbv iota. rewrite div_eucl_shift_self.
  assert (Hloc : new_location (Z.pos m) 0 = loc_Exact).
  { unfold new_location. destruct (Z.even (Z.pos m)); reflexivity. }
  rewrite Hloc. reflexivity.
Qed.

(** Equal sizes give a ratio of exactly zero. *)
Lemma reported_ratio_self (s : Z) :
  0 < s < 2 ^ 53 -> reported_ratio s s = S754_zero false.
Proof.
  intros Hs. unfold reported_ratio. cbv zeta.
  destruct (of_int_normal s Hs) as (m & e & -> & Hd & He).
  rewrite (div_by_mebi m e Hd) by lia.
  rewrite (div_self m (e - 20) Hd). reflexivity.
Qed.

(** X9: used in place (output path = source path), the procedure, when the
    save succeeds, overwrites the source and then measures the "original" size on the file it has just
    written: it prints the same size twice and a compression ratio of
    exactly zero, whatever was removed. *)
Theorem in_place_reports_no_compression (ft : FontTools) (p : string) (st : State)
    (bytes : list Byte.byte) (d d' : FontData) (bytes' : list Byte.byte) :
  files st !! p = Some bytes ->
  ft_decode ft bytes = inr d ->
  is_Some (cmap_tables d) ->
  ft_subset ft (the_subsetter ft d) d = inr d' ->
  ft_compile ft d' = inr bytes' ->
  ft_write ft p bytes' = Written ->
  0 < Z.of_nat (length bytes') < 2 ^ 53 ->
  (subset_font_aggressive ft p p st).1 = Ok tt ∧
  files (subset_font_aggressive ft p p st).2 !! p = Some bytes' ∧
  ∃ pre post,
    new_events st (subset_font_aggressive ft p p st).2 =
      pre ++ [EvPrint (OutOriginalSize (mebibytes (Z.of_nat (length bytes'))));
              EvPrint (OutNewSize (mebibytes (Z.of_nat (length bytes'))));
              EvPrint (OutRatio (S754_zero false))] ++ post.
Proof.
  intros Hsrc Hdec Hcmap Hsub Hcomp Hwr Hlen.
  assert (Hsize : source_size_after_save p p bytes bytes' = Z.of_nat (length bytes')).
  { unfold source_size_after_save. destruct (decide (p = p)) as [_|Hne];
      [reflexivity|]. exfalso. apply Hne. reflexivity. }
  assert (Hz : Float.is_zero
                 (Float.div (Float.of_int (Z.of_nat (length bytes')))
                            (Float.of_int (1024 * 1024))) = false).
  { apply (ratio_scaling (Z.of_nat (length bytes')) 0); lia. }
  rewrite (run_saved_events ft p p st bytes d d' bytes' Hsrc Hdec Hcmap Hsub Hcomp Hwr).
  rewrite (run_saved ft p p st bytes d d' bytes' Hsrc Hdec Hcmap Hsub Hcomp Hwr).
  rewrite Hsize, Hz. cbn [fst snd files with_trace saved_state].
  split; [reflexivity|]. split; [apply lookup_insert_eq|].
  unfold report_events. cbv zeta. rewrite Hz.
  rewrite reported_ratio_self by lia.
  fold (mebibytes (Z.of_nat (length bytes'))).
  eexists (events_to_subset ft p st d ++
           [EvPrint (OutSaving p); EvSave (length (fonts st)) p;
            EvClose (length (fonts st))]), _.
  rewrite <- !app_assoc. cbn [app]. reflexivity.
Qed.

Lemma in_place_reports_no_compression_witness :
  (subset_font_aggressive Sample.identity_tools Sample.src1 Sample.src1 Ref.initial).1
  = Ok tt.
Proof.
  destruct (in_place_reports_no_compression Sample.identity_tools Sample.src1
              Ref.initial Ref.font_A_zhong_emoji Sample.font_A Sample.font_A
              Sample.small_file) as [H _].
  - vm_compute; reflexivity.
  - vm_compute; reflexivity.
  - eexists. vm_compute; reflexivity.
  - reflexivity.
  - reflexivity.
  - reflexivity.
  - vm_compute. split; reflexivity.
  - exact H.
Defined.

(** ** The batch driver *)

(** X10: the driver never lets an exception of a job escape, and chooses
    its report by the class of the exception alone.  A missing source file
    makes the job raise [FileNotFoundError] at once; every
    [FileNotFoundError] of the job, whatever path it carries, is reported as
    the source font not found, without the error and without a trace; every
    other exception is reported with its message and its trace; a job that
    succeeds is acknowledged.  The batch runs its two jobs in order whatever
    their outcomes, then prints the completion banner and returns
    normally. *)
Theorem batch_driver (ft : FontTools) (script_dir : string) (job : string * string)
    (st : State) :
  job ∈ fonts_to_process ->
  (∃ st', process_font ft script_dir job st = (Ok tt, st')) ∧
  (files st !! os_path_join script_dir job.1 = None ->
     process_font ft script_dir job st =
       (Ok tt, with_trace st
                 (job_header job.1 ++
                  [EvPrint (OutReading (os_path_join script_dir job.1));
                   EvPrint (OutNotFound (os_path_join script_dir job.1))]))) ∧
  (forall p st1,
     subset_font_aggressive ft (os_path_join script_dir job.1)
       (os_path_join script_dir job.2) (with_trace st (job_header job.1))
       = (Raise (FileNotFoundError p), st1) ->
     process_font ft script_dir job st =
       (Ok tt, with_trace st1 [EvPrint (OutNotFound (os_path_join script_dir job.1))])) ∧
  (forall e st1,
     (forall p, e ≠ FileNotFoundError p) ->
     subset_font_aggressive ft (os_path_join script_dir job.1)
       (os_path_join script_dir job.2) (with_trace st (job_header job.1))
       = (Raise e, st1) ->
     process_font ft script_dir job st =
       (Ok tt, with_trace st1 [EvPrint (OutError e); EvPrint (OutTraceback e)])) ∧
  (forall st1,
     subset_font_aggressive ft (os_path_join script_dir job.1)
       (os_path_join script_dir job.2) (with_trace st (job_header job.1))
       = (Ok tt, st1) ->
     process_font ft script_dir job st = (Ok tt, with_trace st1 [EvPrint OutJobDone])) ∧
  length fonts_to_process = 2%nat ∧
  (forall st0, ∃ job1 job2 st1 st2,
     fonts_to_process = [job1; job2] ∧
     process_font ft script_dir job1 st0 = (Ok tt, st1) ∧
     process_font ft script_dir job2 st1 = (Ok tt, st2) ∧
     main ft script_dir st0 = (Ok tt, with_trace st2 completion_banner)).
Proof.
  intros _. destruct job as [sn on]. cbn [fst snd].
  split; [apply process_font_total|].
  split; [apply process_font_missing|].
  split; [intros p st1; apply process_font_not_found|].
  split; [intros e st1; apply process_font_error|].
  split.
  { intros st1 Hrun. rewrite process_font_unfold, Hrun. reflexivity. }
  split; [reflexivity|].
  intros st0.
  destruct (process_font_total ft script_dir
              ("SourceHanSerifSC.otf", "SourceHanSerifSC-subset.otf") st0) as [st1 H1].
  destruct (process_font_total ft script_dir
              ("SourceHanSansSC-Bold.otf", "SourceHanSansSC-Bold-subset.otf") st1)
    as [st2 H2].
  exists ("SourceHanSerifSC.otf", "SourceHanSerifSC-subset.otf"),
         ("SourceHanSansSC-Bold.otf", "SourceHanSansSC-Bold-subset.otf"), st1, st2.
  split; [reflexivity|]. split; [exact H1|]. split; [exact H2|].
  exact (main_unfold ft script_dir st0 st1 st2 H1 H2).
Qed.

Lemma batch_driver_witness :
  ∃ st', main Ref.fonttools "/fonts" Ref.initial = (Ok tt, st').
Proof.
  destruct (batch_driver Ref.fonttools "/fonts"
              ("SourceHanSerifSC.otf", "SourceHanSerifSC-subset.otf") Ref.initial)
    as (_ & _ & _ & _ & _ & _ & Hmain).
  - apply list_elem_of_here.
  - destruct (Hmain Ref.initial) as (j1 & j2 & st1 & st2 & _ & _ & _ & H).
    exists (with_trace st2 completion_banner). exact H.
Defined.
